(** * SaaS Landing API: a shallow embedding of [main.py]

    The service is a thin request/response layer over a document
    database.  Every handler of [main.py] is embedded as a function in
    a small state-and-exception monad over the world the handlers can
    observe: the module-global [db] handle and the clock.

    Layout: hashing ([Sha256]), documents and the store, the adapter
    ([database.py], which is not part of the sources at hand), the
    handler monad, the handlers, and then the theorems. *)

From Stdlib Require Import ZArith String Ascii List.
From stdpp Require Import gmap strings list fin_maps.

Local Open Scope string_scope.
Local Open Scope list_scope.
Local Open Scope Z_scope.

(* ===================================================================== *)
(** ** [hashlib.sha256(...).hexdigest()] *)
(* ===================================================================== *)

(** Lowercase hexadecimal rendering of the low [4 * n] bits of [x], most
    significant digit first, as [hexdigest()] and [str(ObjectId)] print. *)
Definition hex_digit (d : Z) : ascii :=
  ascii_of_nat (Z.to_nat (if d <? 10 then 48 + d else 87 + d)).

Fixpoint hex_of (n : nat) (x : Z) : list ascii :=
  match n with
  | O => []
  | S n' => hex_of n' (Z.shiftr x 4) ++ [hex_digit (Z.land x 15)]
  end.

Module Sha256.

(** 32-bit words are integers with the wrap-around written out. *)
Definition w32 (x : Z) : Z := x mod 4294967296.

Definition add32 (x y : Z) : Z := w32 (x + y).

Definition rotr (n x : Z) : Z :=
  Z.lor (Z.shiftr x n) (w32 (Z.shiftl x (32 - n))).

Definition not32 (x : Z) : Z := 4294967295 - x.

Definition ch (x y z : Z) : Z :=
  Z.lxor (Z.land x y) (Z.land (not32 x) z).

Definition maj (x y z : Z) : Z :=
  Z.lxor (Z.lxor (Z.land x y) (Z.land x z)) (Z.land y z).

Definition bsig0 (x : Z) : Z :=
  Z.lxor (Z.lxor (rotr 2 x) (rotr 13 x)) (rotr 22 x).

Definition bsig1 (x : Z) : Z :=
  Z.lxor (Z.lxor (rotr 6 x) (rotr 11 x)) (rotr 25 x).

Definition ssig0 (x : Z) : Z :=
  Z.lxor (Z.lxor (rotr 7 x) (rotr 18 x)) (Z.shiftr x 3).

Definition ssig1 (x : Z) : Z :=
  Z.lxor (Z.lxor (rotr 17 x) (rotr 19 x)) (Z.shiftr x 10).

(** The constants of the standard: the first 32 bits of the fractional
    parts of the cube roots (round constants) and of the square roots
    (initial hash value) of the first primes. *)
Definition is_prime (n : nat) : bool :=
  forallb (fun d => negb (Nat.eqb (Nat.modulo n d) 0)) (seq 2 (n - 2)).

Definition first_primes (k : nat) : list Z :=
  map Z.of_nat (firstn k (List.filter is_prime (seq 2 310))).

Fixpoint cube_root_bits (i : nat) (n r : Z) : Z :=
  match i with
  | O => r
  | S i' =>
      let c := r + Z.shiftl 1 (Z.of_nat i') in
      cube_root_bits i' n (if c * c * c <=? n then c else r)
  end.

Definition cube_root (n : Z) : Z := cube_root_bits 40 n 0.

Definition round_constants : list Z :=
  map (fun p => w32 (cube_root (Z.shiftl p 96))) (first_primes 64).

Definition initial_hash : list Z :=
  map (fun p => w32 (Z.sqrt (Z.shiftl p 64))) (first_primes 8).

(** Padding: one [0x80] byte, zero bytes up to 56 modulo 64, then the
    bit length as a 64-bit big-endian integer. *)
Fixpoint be_bytes (n : nat) (x : Z) : list Z :=
  match n with
  | O => []
  | S n' => be_bytes n' (Z.shiftr x 8) ++ [Z.land x 255]
  end.

Definition pad (msg : list Z) : list Z :=
  let len := Z.of_nat (length msg) in
  let zeros := Z.to_nat ((55 - len) mod 64) in
  msg ++ [128] ++ repeat 0 zeros ++ be_bytes 8 (8 * len).

(** Big-endian 32-bit words of a byte sequence whose length is a
    multiple of four. *)
Fixpoint words (bs : list Z) : list Z :=
  match bs with
  | a :: b :: c :: d :: rest =>
      (((a * 256 + b) * 256 + c) * 256 + d) :: words rest
  | _ => []
  end.

(** The message schedule is kept most recent word first: [sched] is
    [W(t-1); W(t-2); ...]. *)
Definition next_w (sched : list Z) : Z :=
  add32 (add32 (ssig1 (nth 1 sched 0)) (nth 6 sched 0))
        (add32 (ssig0 (nth 14 sched 0)) (nth 15 sched 0)).

Fixpoint extend (n : nat) (sched : list Z) : list Z :=
  match n with
  | O => sched
  | S n' => extend n' (next_w sched :: sched)
  end.

Definition schedule (block : list Z) : list Z :=
  rev (extend 48 (rev block)).

Record regs := Regs { ra : Z; rb : Z; rc : Z; rd : Z;
                      re : Z; rf : Z; rg : Z; rh : Z }.

Definition step (s : regs) (kw : Z * Z) : regs :=
  let t1 := add32 (add32 (add32 (rh s) (bsig1 (re s)))
                         (add32 (ch (re s) (rf s) (rg s)) (fst kw)))
                  (snd kw) in
  let t2 := add32 (bsig0 (ra s)) (maj (ra s) (rb s) (rc s)) in
  Regs (add32 t1 t2) (ra s) (rb s) (rc s)
       (add32 (rd s) t1) (re s) (rf s) (rg s).

Definition compress (h : regs) (block : list Z) : regs :=
  let s := fold_left step (combine round_constants (schedule block)) h in
  Regs (add32 (ra h) (ra s)) (add32 (rb h) (rb s))
       (add32 (rc h) (rc s)) (add32 (rd h) (rd s))
       (add32 (re h) (re s)) (add32 (rf h) (rf s))
       (add32 (rg h) (rg s)) (add32 (rh h) (rh s)).

Fixpoint blocks (n : nat) (ws : list Z) : list (list Z) :=
  match n with
  | O => []
  | S n' => match ws with
            | [] => []
            | _ => firstn 16 ws :: blocks n' (skipn 16 ws)
            end
  end.

Definition digest_words (msg : list Z) : list Z :=
  let ws := words (pad msg) in
  let h0 := match initial_hash with
            | [a; b; c; d; e; f; g; h] => Regs a b c d e f g h
            | _ => Regs 0 0 0 0 0 0 0 0
            end in
  let h := fold_left compress (blocks (length ws) ws) h0 in
  [ra h; rb h; rc h; rd h; re h; rf h; rg h; rh h].

Definition bytes_of_string (s : string) : list Z :=
  map (fun c => Z.of_nat (nat_of_ascii c)) (list_ascii_of_string s).

Definition hexdigest (s : string) : string :=
  string_of_list_ascii
    (concat (map (hex_of 8) (digest_words (bytes_of_string s)))).

End Sha256.

(** [sha256(text)] of [main.py]: the text is held as its UTF-8 bytes. *)
Definition sha256 (text : string) : string := Sha256.hexdigest text.

(** Digests of unknown texts stay folded during simplification. *)
Arguments sha256 : simpl never.


(* ===================================================================== *)
(** ** Documents and the store *)
(* ===================================================================== *)

(** A [datetime] is a count of clock ticks; an [ObjectId] is a 96-bit
    number. *)
Abbreviation Time := N.
Abbreviation ObjectId := N.

(** The values the handlers put into and read out of dictionaries. *)
Inductive value :=
  | VNone
  | VBool (b : bool)
  | VStr (s : string)
  | VList (l : list string)
  | VDate (t : Time).

#[export] Instance value_eq_dec : EqDecision value.
Proof. solve_decision. Defined.

(** A Python [dict] with string keys. *)
Abbreviation pydict := (gmap string value).

(** [d.get(k)] and [d.get(k, default)]. *)
Definition dict_get (d : pydict) (k : string) : value :=
  default VNone (d !! k).

Definition dict_get_or (d : pydict) (k : string) (dflt : value) : value :=
  default dflt (d !! k).

(** A stored document: the database gives every document an [_id]; the
    other fields are the dictionary that was inserted. *)
Record Document := Doc { doc_id : ObjectId; doc_fields : pydict }.

(** [str(doc["_id"])]: twenty-four hexadecimal digits. *)
Definition oid_str (o : ObjectId) : string :=
  string_of_list_ascii (hex_of 24 (Z.of_N o)).

Arguments oid_str : simpl never.

(** The database: named collections, each a sequence of documents in
    insertion order, and the generator of fresh identifiers. *)
Record Store := MkStore {
  colls : gmap string (list Document);
  next_oid : ObjectId
}.

(** [db[name]]: a collection that was never written to is empty. *)
Definition collection (st : Store) (name : string) : list Document :=
  default [] (colls st !! name).

(** An equality filter [{k1: v1, ...}] selects the documents that carry
    each listed field with the listed value; [{}] selects all. *)
Definition matches (flt : pydict) (d : Document) : bool :=
  bool_decide (flt ⊆ doc_fields d).

(** [collection.find_one(filter)], [collection.count_documents(filter)]
    and [collection.insert_one(doc)]. *)
Definition find_one (c : list Document) (flt : pydict) : option Document :=
  List.find (matches flt) c.

Definition count_documents (c : list Document) (flt : pydict) : Z :=
  Z.of_nat (length (List.filter (matches flt) c)).

Definition insert_one (st : Store) (name : string) (fields : pydict)
  : ObjectId * Store :=
  (next_oid st,
   MkStore (<[name := collection st name ++ [Doc (next_oid st) fields]]> (colls st))
           (N.succ (next_oid st))).

(** What a handler can observe and change: the module-global [db] of
    [database.py] ([None] when no connection could be made) and the
    clock behind [datetime.utcnow()]. *)
Record World := MkWorld {
  db : option Store;
  clock : Time
}.

(* ===================================================================== *)
(** ** The handler monad: state and exceptions *)
(* ===================================================================== *)

Inductive outcome (E A : Type) :=
  | Return (a : A)
  | Raise (e : E).
Arguments Return {E A} a.
Arguments Raise {E A} e.

Section Monad.
Context {E S : Type}.

(** A computation runs in a state and either returns or raises; the
    state changes made before a [raise] stay. *)
Definition M (A : Type) : Type := S -> outcome E A * S.

Definition ret {A} (a : A) : M A := fun s => (Return a, s).

Definition bind {A B} (m : M A) (k : A -> M B) : M B :=
  fun s => match m s with
           | (Return a, s') => k a s'
           | (Raise e, s') => (Raise e, s')
           end.

Definition raise {A} (e : E) : M A := fun s => (Raise e, s).

Definition get_state : M S := fun s => (Return s, s).

Definition modify (f : S -> S) : M unit := fun s => (Return tt, f s).

(** [try: body  except Exception as e: handler(e)]. *)
Definition try_except {A} (body : M A) (handler : E -> M A) : M A :=
  fun s => match body s with
           | (Return a, s') => (Return a, s')
           | (Raise e, s') => handler e s'
           end.

(** [for x in xs: body(x)]. *)
Fixpoint for_each {A} (xs : list A) (body : A -> M unit) : M unit :=
  match xs with
  | [] => ret tt
  | x :: xs' => bind (body x) (fun _ => for_each xs' body)
  end.
End Monad.
Arguments M : clear implicits.


(** The handlers are written with the usual notations: [x ← c; k] and
    [c;; k]. *)
#[export] Instance M_ret {E S} : MRet (M E S) := fun A => ret.
#[export] Instance M_bind {E S} : MBind (M E S) := fun A B k m => bind m k.

(** The exceptions the API handlers raise or let through. *)
Inductive exn :=
  | HTTPException (status_code : Z) (detail : string)
  | StorageUnavailable.

Abbreviation Handler := (M exn World).

Definition get_db : Handler (option Store) :=
  fun w => (Return (db w), w).

(** [datetime.utcnow()]: reads the clock, which then moves on. *)
Definition utcnow : Handler Time :=
  fun w => (Return (clock w), MkWorld (db w) (N.succ (clock w))).

(* ===================================================================== *)
(** ** The adapter, [database.py] *)
(* ===================================================================== *)

(** Modelled from the spec: [create_document] of [database.py], which is
    not among the sources.  "Inserts a new document, stamping creation
    metadata (e.g., timestamp), and returns a generated unique
    identifier.  Fails with StorageUnavailable if no live connection." *)
Definition create_document (name : string) (fields : pydict) : Handler string :=
  fun w =>
    match db w with
    | None => (Raise StorageUnavailable, w)
    | Some st =>
        let (oid, st') :=
          insert_one st name (<["created_at" := VDate (clock w)]> fields) in
        (Return (oid_str oid), MkWorld (Some st') (N.succ (clock w)))
    end.

(** Modelled from the spec: [get_documents] of [database.py], which is
    not among the sources.  "Returns up to [limit] matching documents in
    store-defined order.  Empty filter matches all."  Without a
    connection "all operations are no-ops/return empty". *)
Definition get_documents (name : string) (flt : pydict) (limit : Z)
  : Handler (list Document) :=
  fun w =>
    match db w with
    | None => (Return [], w)
    | Some st =>
        (Return (take (Z.to_nat limit)
                      (List.filter (matches flt) (collection st name))), w)
    end.

(* ===================================================================== *)
(** ** Request models *)
(* ===================================================================== *)

Record RegisterRequest := MkRegisterRequest {
  reg_name : string;
  reg_email : string;
  reg_password : string
}.

Record LoginRequest := MkLoginRequest {
  login_email : string;
  login_password : string
}.

Record ContactRequest := MkContactRequest {
  contact_name : string;
  contact_email : string;
  contact_message : string
}.

(* ===================================================================== *)
(** ** Auth *)
(* ===================================================================== *)

(** [db["user"].find_one({"email": email}) if db else None]; the handle
    is taken to be truthy exactly when it is not [None]. *)
Definition find_user (d : option Store) (email : string) : option Document :=
  match d with
  | Some st => find_one (collection st "user") {[ "email" := VStr email ]}
  | None => None
  end.

(** A document that was found is a dictionary with at least its [_id],
    so [if existing] and [not user] only tell [None] from a document. *)
Definition register (payload : RegisterRequest) : Handler pydict :=
  d ← get_db;
  let existing := find_user d (reg_email payload) in
  if bool_decide (is_Some existing)
  then raise (HTTPException 400 "Email already registered")
  else
    let user_doc : pydict :=
      {[ "name" := VStr (reg_name payload);
         "email" := VStr (reg_email payload);
         "password_hash" := VStr (sha256 (reg_password payload));
         "plan" := VStr "free";
         "is_active" := VBool true ]} in
    user_id ← create_document "user" user_doc;
    mret ({[ "id" := VStr user_id;
             "name" := VStr (reg_name payload);
             "email" := VStr (reg_email payload);
             "plan" := VStr "free" ]} : pydict).

Definition login (payload : LoginRequest) : Handler pydict :=
  d ← get_db;
  match find_user d (login_email payload) with
  | None => raise (HTTPException 401 "Invalid credentials")
  | Some user =>
      if bool_decide (dict_get (doc_fields user) "password_hash"
                      ≠ VStr (sha256 (login_password payload)))
      then raise (HTTPException 401 "Invalid credentials")
      else
        mret ({[ "id" := VStr (oid_str (doc_id user));
                 "name" := dict_get (doc_fields user) "name";
                 "email" := dict_get (doc_fields user) "email";
                 "plan" := dict_get_or (doc_fields user) "plan" (VStr "free") ]}
              : pydict)
  end.

(* ===================================================================== *)
(** ** Blog *)
(* ===================================================================== *)

(** The three sample posts; the arguments are the three readings of the
    clock taken while the list is built. *)
Definition samples (t1 t2 t3 : Time) : list pydict :=
  [ {[ "title" := VStr "Designing With Pastels: A Gentle UI Aesthetic";
       "slug" := VStr "designing-with-pastels";
       "excerpt" := VStr "How soft color palettes can increase trust and readability in fintech apps.";
       "content" := VStr "<p>Pastels bring calm to complex financial interfaces...</p>";
       "author" := VStr "Team";
       "tags" := VList ["design"; "ux"];
       "published_at" := VDate t1 ]};
    {[ "title" := VStr "Pricing Psychology for SaaS";
       "slug" := VStr "pricing-psychology-saas";
       "excerpt" := VStr "Anchoring, decoys and how to present value tiers.";
       "content" := VStr "<p>Great pricing pages tell a story of value...</p>";
       "author" := VStr "Team";
       "tags" := VList ["growth"; "pricing"];
       "published_at" := VDate t2 ]};
    {[ "title" := VStr "Frictionless Onboarding";
       "slug" := VStr "frictionless-onboarding";
       "excerpt" := VStr "Best practices for sign-up and authentication flows.";
       "content" := VStr "<p>Every extra field reduces conversions...</p>";
       "author" := VStr "Team";
       "tags" := VList ["product"; "auth"];
       "published_at" := VDate t3 ]} ].

(** [db["blogpost"].count_documents({}) if db else 0]. *)
Definition count_blogposts (d : option Store) : Z :=
  match d with
  | Some st => count_documents (collection st "blogpost") ∅
  | None => 0
  end.

Definition ensure_sample_blog_posts : Handler unit :=
  d ← get_db;
  let count := count_blogposts d in
  if (count =? 0) && bool_decide (is_Some d)
  then
    t1 ← utcnow; t2 ← utcnow; t3 ← utcnow;
    for_each (samples t1 t2 t3)
             (fun post => create_document "blogpost" post;; mret tt)
  else mret tt.

(** One entry of the list view. *)
Definition blog_item (d : pydict) : pydict :=
  {[ "title" := dict_get d "title";
     "slug" := dict_get d "slug";
     "excerpt" := dict_get d "excerpt";
     "author" := dict_get_or d "author" (VStr "Team");
     "published_at" := dict_get d "published_at";
     "tags" := dict_get_or d "tags" (VList []) ]}.

(** The response [{"posts": items}]. *)
Record BlogList := MkBlogList { posts : list pydict }.

Definition default_limit : Z := 6.

Definition list_blog (limit : Z) : Handler BlogList :=
  ensure_sample_blog_posts;;
  docs ← get_documents "blogpost" ∅ limit;
  mret (MkBlogList (map (fun d => blog_item (doc_fields d)) docs)).

(** [db["blogpost"].find_one({"slug": slug}) if db else None]. *)
Definition find_post (d : option Store) (slug : string) : option Document :=
  match d with
  | Some st => find_one (collection st "blogpost") {[ "slug" := VStr slug ]}
  | None => None
  end.

Definition get_blog (slug : string) : Handler pydict :=
  d ← get_db;
  match find_post d slug with
  | None => raise (HTTPException 404 "Post not found")
  | Some doc =>
      let f := doc_fields doc in
      mret ({[ "title" := dict_get f "title";
               "slug" := dict_get f "slug";
               "excerpt" := dict_get f "excerpt";
               "content" := dict_get f "content";
               "author" := dict_get_or f "author" (VStr "Team");
               "published_at" := dict_get f "published_at";
               "tags" := dict_get_or f "tags" (VList []) ]} : pydict)
  end.

(* ===================================================================== *)
(** ** Contact *)
(* ===================================================================== *)

Definition contact (payload : ContactRequest) : Handler pydict :=
  let doc : pydict :=
    {[ "name" := VStr (contact_name payload);
       "email" := VStr (contact_email payload);
       "message" := VStr (contact_message payload);
       "status" := VStr "new" ]} in
  message_id ← create_document "contactmessage" doc;
  mret ({[ "id" := VStr message_id; "status" := VStr "received" ]} : pydict).

(* ===================================================================== *)
(** ** The diagnostic endpoint *)
(* ===================================================================== *)

(** Python texts are held as their UTF-8 bytes.  A character (code
    point) starts at every byte that is not a continuation byte
    [10xxxxxx]; the bytes that follow it up to the next start belong to
    it. *)
Definition is_continuation (c : ascii) : bool :=
  match c with
  | Ascii _ _ _ _ _ _ b6 b7 => b7 && negb b6
  end.

(** [len(s)]: the number of characters. *)
Fixpoint code_points (s : string) : nat :=
  match s with
  | EmptyString => O
  | String c s' => if is_continuation c then code_points s' else S (code_points s')
  end.

(** [s[:n]]: the first [n] characters, each with all of its bytes. *)
Fixpoint take_chars (n : nat) (s : string) : string :=
  match s with
  | EmptyString => EmptyString
  | String c s' =>
      if is_continuation c then String c (take_chars n s')
      else match n with
           | O => EmptyString
           | S n' => String c (take_chars n' s')
           end
  end.

(** The text is empty or begins at the start of a character. *)
Definition starts_char (s : string) : Prop :=
  match s with
  | EmptyString => True
  | String c _ => is_continuation c = false
  end.

Module Diagnostic.

(** [test_database] looks at [db] only through [hasattr(db, 'name')],
    [db.name] and [db.list_collection_names()], and any of them may
    raise.  A handle records what each does; an exception is
    identified with its message [str(e)], a sequence of characters. *)
Inductive attr :=
  | NoAttr                       (* AttributeError: [hasattr] is False *)
  | Attr (v : string)
  | AttrRaises (msg : string).

Record DbHandle := MkDbHandle {
  name : attr;
  collection_names : outcome string (list string)
}.

(** The computation builds the response dictionary in place. *)
Abbreviation Diag := (M string pydict).

Definition set_item (k : string) (v : value) : Diag unit :=
  modify (fun response => <[k := v]> response).

Definition hasattr_name (h : DbHandle) : Diag bool :=
  match name h with
  | NoAttr => mret false
  | Attr _ => mret true
  | AttrRaises msg => raise msg
  end.

Definition getattr_name (h : DbHandle) : Diag string :=
  match name h with
  | NoAttr => raise "AttributeError"
  | Attr v => mret v
  | AttrRaises msg => raise msg
  end.

Definition list_collection_names (h : DbHandle) : Diag (list string) :=
  match collection_names h with
  | Return cs => mret cs
  | Raise msg => raise msg
  end.

(** [s[:80]]: the first 80 characters.  A text is held as its UTF-8
    bytes, so the slice counts characters, not bytes. *)
Definition first80 (s : string) : string := take_chars 80 s.

(** Truthiness of [os.getenv(k)]: set and not empty. *)
Definition getenv_truthy (environ : gmap string string) (k : string) : bool :=
  match environ !! k with
  | Some v => negb (String.eqb v "")
  | None => false
  end.

Definition initial_response : pydict :=
  {[ "backend" := VStr "✅ Running";
     "database" := VStr "❌ Not Available";
     "database_url" := VStr "❌ Not Set";
     "database_name" := VStr "❌ Not Set";
     "connection_status" := VStr "Not Connected";
     "collections" := VList [] ]}.

Definition test_database_body (environ : gmap string string)
    (d : option DbHandle) : Diag pydict :=
  try_except
    (match d with
     | Some h =>
         set_item "database" (VStr "✅ Available");;
         set_item "database_url"
           (VStr (if getenv_truthy environ "DATABASE_URL"
                  then "✅ Set" else "❌ Not Set"));;
         has ← hasattr_name h;
         nm ← (if has : bool then getattr_name h
               else mret "✅ Connected" : Diag string);
         set_item "database_name" (VStr nm);;
         set_item "connection_status" (VStr "Connected");;
         try_except
           (cs ← list_collection_names h;
            set_item "collections" (VList cs);;
            set_item "database" (VStr "✅ Connected & Working"))
           (fun e =>
              set_item "database"
                (VStr ("⚠️ Connected but Error: " +:+ first80 e)))
     | None => mret tt
     end)
    (fun e => set_item "database" (VStr ("❌ Error: " +:+ first80 e)));;
  get_state.

(** What the framework sees: the handler's outcome. *)
Definition test_database (environ : gmap string string)
    (d : option DbHandle) : outcome string pydict :=
  fst (test_database_body environ d initial_response).

End Diagnostic.

(* ===================================================================== *)
(** ** Vocabulary of the statements *)
(* ===================================================================== *)

(** The documents of a collection as a request finds them; nothing is
    stored when there is no database. *)
Definition stored (w : World) (name : string) : list Document :=
  match db w with
  | Some st => collection st name
  | None => []
  end.

(** The document carries field [k] with the string [s]. *)
Definition has_field (k s : string) (d : Document) : Prop :=
  doc_fields d !! k = Some (VStr s).

(** The document [create_document] stores for [fields] at clock [t]. *)
Definition stamped (o : ObjectId) (t : Time) (fields : pydict) : Document :=
  Doc o (<["created_at" := VDate t]> fields).

(** The keys of a dictionary. *)
Definition keys (d : pydict) : gset string := dom d.

(** The document and the response of a registration. *)
Definition user_doc_of (payload : RegisterRequest) : pydict :=
  {[ "name" := VStr (reg_name payload);
     "email" := VStr (reg_email payload);
     "password_hash" := VStr (sha256 (reg_password payload));
     "plan" := VStr "free";
     "is_active" := VBool true ]}.

Definition user_view (o : ObjectId) (name email plan : value) : pydict :=
  {[ "id" := VStr (oid_str o); "name" := name; "email" := email; "plan" := plan ]}.


(* ===================================================================== *)
(** ** Sample requests and worlds *)
(* ===================================================================== *)

(** A connected database with no collections. *)
Definition empty_world : World := MkWorld (Some (MkStore ∅ 1)) 100.

Definition ann : RegisterRequest :=
  MkRegisterRequest "Ann" "ann@example.com" "secret".

Definition ann_login : LoginRequest :=
  MkLoginRequest "ann@example.com" "secret".

(** [empty_world] after [ann] registered. *)
Definition ann_world : World :=
  MkWorld (Some (MkStore {[ "user" := [stamped 1 100 (user_doc_of ann)] ]} 2)) 101.

(** A user document written before plans existed: it has no plan. *)
Definition legacy_user : Document :=
  Doc 7 {[ "name" := VStr "Bob";
           "email" := VStr "bob@example.com";
           "password_hash" := VStr (sha256 "hunter2") ]}.

Definition legacy_world : World :=
  MkWorld (Some (MkStore {[ "user" := [legacy_user] ]} 8)) 200.

Definition bob_login : LoginRequest :=
  MkLoginRequest "bob@example.com" "hunter2".

(** The blogpost collection after seeding a store whose next identifier
    is [o] at clock [t]: the samples read the clock at [t], [t+1], [t+2]
    and are stamped at [t+3], [t+4], [t+5]. *)
Definition seeded_posts (o : ObjectId) (t : Time) : list Document :=
  zip_with (fun at_ post => stamped (fst at_) (snd at_) post)
           [ (o, t + 3); (o + 1, t + 4); (o + 2, t + 5) ]%N
           (samples t (t + 1) (t + 2))%N.

(** The entries of the list view, in the order of [docs]. *)
Definition blog_items (docs : list Document) : list pydict :=
  map (fun d => blog_item (doc_fields d)) docs.

Definition list_keys : gset string :=
  {[ "title"; "slug"; "excerpt"; "author"; "published_at"; "tags" ]}.

Definition record_keys : gset string :=
  {[ "title"; "slug"; "excerpt"; "content"; "author"; "published_at"; "tags" ]}.

(** A post stored without author and tags, beside a complete one. *)
Definition anonymous_post : Document :=
  Doc 3 {[ "title" := VStr "Untitled"; "slug" := VStr "untitled";
           "content" := VStr "<p>draft</p>" ]}.

Definition signed_post : Document :=
  Doc 4 {[ "title" := VStr "Hello"; "slug" := VStr "hello";
           "content" := VStr "<p>hello</p>"; "author" := VStr "Ann";
           "tags" := VList ["news"] ]}.

Definition blog_world : World :=
  MkWorld (Some (MkStore {[ "blogpost" := [anonymous_post; signed_post] ]} 5)) 300.

(** What the list view shows of a stored document. *)
Definition listed_as (d : Document) (item : pydict) : Prop :=
  let f := doc_fields d in
  keys item = list_keys
  /\ item !! "content" = None
  /\ item !! "title" = Some (dict_get f "title")
  /\ item !! "slug" = Some (dict_get f "slug")
  /\ item !! "excerpt" = Some (dict_get f "excerpt")
  /\ item !! "published_at" = Some (dict_get f "published_at")
  /\ item !! "author" = Some (match f !! "author" with
                              | Some a => a
                              | None => VStr "Team"
                              end)
  /\ item !! "tags" = Some (match f !! "tags" with
                            | Some l => l
                            | None => VList []
                            end).

(** What the single-post view shows of a stored document. *)
Definition shown_as (d : Document) (r : pydict) : Prop :=
  let f := doc_fields d in
  keys r = record_keys
  /\ r !! "title" = Some (dict_get f "title")
  /\ r !! "slug" = Some (dict_get f "slug")
  /\ r !! "excerpt" = Some (dict_get f "excerpt")
  /\ r !! "content" = Some (dict_get f "content")
  /\ r !! "published_at" = Some (dict_get f "published_at")
  /\ r !! "author" = Some (match f !! "author" with
                           | Some a => a
                           | None => VStr "Team"
                           end)
  /\ r !! "tags" = Some (match f !! "tags" with
                         | Some l => l
                         | None => VList []
                         end).

Definition hello : ContactRequest :=
  MkContactRequest "Cy" "cy@example.com" "Hello there".

(* ===================================================================== *)
(** ** Vocabulary of the further properties *)
(* ===================================================================== *)

(** No two documents of a collection carry the same email. *)
Definition unique_emails (c : list Document) : Prop :=
  forall (i j : nat) (d1 d2 : Document) (e : string),
    c !! i = Some d1 -> c !! j = Some d2 ->
    has_field "email" e d1 -> has_field "email" e d2 -> i = j.

Definition auth_keys : gset string := {[ "id"; "name"; "email"; "plan" ]}.

Definition diagnostic_keys : gset string :=
  {[ "backend"; "database"; "database_url"; "database_name";
     "connection_status"; "collections" ]}.

(** The characters of a lowercase hexadecimal digest. *)
Definition hex_chars : list ascii := list_ascii_of_string "0123456789abcdef".

(** A deactivated account. *)
Definition dormant_user : Document :=
  Doc 9 {[ "name" := VStr "Dee";
           "email" := VStr "dee@example.com";
           "password_hash" := VStr (sha256 "pass");
           "plan" := VStr "pro";
           "is_active" := VBool false ]}.

Definition dormant_world : World :=
  MkWorld (Some (MkStore {[ "user" := [dormant_user] ]} 10)) 400.

Definition dee_login : LoginRequest := MkLoginRequest "dee@example.com" "pass".

(** The routes that reach the store, with their arguments, and the
    world a request, or a sequence of requests served one after the
    other, leaves behind. *)
Inductive request :=
  | PostRegister (payload : RegisterRequest)
  | PostLogin (payload : LoginRequest)
  | GetBlogList (limit : Z)
  | GetBlogPost (slug : string)
  | PostContact (payload : ContactRequest).

Definition serve (w : World) (req : request) : World :=
  match req with
  | PostRegister payload => snd (register payload w)
  | PostLogin payload => snd (login payload w)
  | GetBlogList limit => snd (list_blog limit w)
  | GetBlogPost slug => snd (get_blog slug w)
  | PostContact payload => snd (contact payload w)
  end.

Definition serve_all (reqs : list request) (w : World) : World :=
  fold_left serve reqs w.

(** A busy morning. *)
Definition session : list request :=
  [ PostRegister ann; GetBlogList 6; PostLogin ann_login;
    PostRegister (MkRegisterRequest "Impostor" "ann@example.com" "guess");
    PostContact hello; GetBlogPost "frictionless-onboarding";
    PostRegister (MkRegisterRequest "Bob" "bob@example.com" "hunter2") ].

(** A user document whose plan is stored as None. *)
Definition planless_user : Document :=
  Doc 11 {[ "name" := VStr "Eve";
            "email" := VStr "eve@example.com";
            "password_hash" := VStr (sha256 "pw");
            "plan" := VNone ]}.

Definition planless_world : World :=
  MkWorld (Some (MkStore {[ "user" := [planless_user] ]} 12)) 500.

Definition eve_login : LoginRequest := MkLoginRequest "eve@example.com" "pw".

(** An error message of 81 two-byte characters. *)
Definition accented_message : string := String.concat "" (List.repeat "é" 81).
(* ===================================================================== *)
(** ** Known digests *)
(* ===================================================================== *)

Example sha256_abc :
  sha256 "abc"
  = "ba7816bf8f01cfea414140de5dae2223b00361a396177a9cb410ff61f20015ad".
Proof. vm_compute. reflexivity. Qed.

Example sha256_empty :
  sha256 ""
  = "e3b0c44298fc1c149afbf4c8996fb92427ae41e4649b934ca495991b7852b855".
Proof. vm_compute. reflexivity. Qed.

Example sha256_two_blocks :
  sha256 "abcdbcdecdefdefgefghfghighijhijkijkljklmklmnlmnomnopnopq"
  = "248d6a61d20638b8e5c026930c3e6039a33ce45964ff2167f6ecedd419db06c1".
Proof. vm_compute. reflexivity. Qed.

Example sha256_constants :
  nth 0 Sha256.round_constants 0 = 0x428a2f98
  /\ nth 63 Sha256.round_constants 0 = 0xc67178f2
  /\ length Sha256.round_constants = 64%nat
  /\ nth 0 Sha256.initial_hash 0 = 0x6a09e667
  /\ nth 7 Sha256.initial_hash 0 = 0x5be0cd19.
Proof. vm_compute. repeat split. Qed.

(** Hashing is a function of the text, and it tells case apart. *)
Example sha256_case_sensitive : sha256 "secret" ≠ sha256 "secreT".
Proof. vm_compute. discriminate. Qed.

(* ===================================================================== *)
(** ** Lookups in a collection *)
(* ===================================================================== *)

Lemma matches_singleton k v d :
  matches {[ k := v ]} d = true <-> doc_fields d !! k = Some v.
Proof.
  unfold matches. rewrite bool_decide_eq_true.
  apply map_singleton_subseteq_l.
Qed.

Lemma matches_singleton_false k v d :
  matches {[ k := v ]} d = false <-> doc_fields d !! k ≠ Some v.
Proof.
  rewrite <- matches_singleton. destruct (matches _ d); split; congruence.
Qed.

Lemma matches_empty d : matches ∅ d = true.
Proof. unfold matches. apply bool_decide_eq_true, map_empty_subseteq. Qed.

Lemma filter_matches_empty c : List.filter (matches ∅) c = c.
Proof.
  induction c as [|d c IH]; simpl; [done|].
  by rewrite matches_empty, IH.
Qed.

Lemma find_one_none k s c :
  find_one c {[ k := VStr s ]} = None <-> Forall (fun d => ¬ has_field k s d) c.
Proof.
  unfold find_one, has_field. induction c as [|d c IH]; simpl.
  - split; [constructor | done].
  - destruct (matches _ d) eqn:Hm.
    + apply matches_singleton in Hm. split; [done|].
      intros H. by inversion H.
    + apply matches_singleton_false in Hm. rewrite IH. split.
      * by constructor.
      * intros H. by inversion H.
Qed.

(** [find_one] answers with the first document that matches. *)
Lemma find_one_some k s c d :
  find_one c {[ k := VStr s ]} = Some d <->
  exists c1 c2, c = c1 ++ d :: c2
                /\ Forall (fun d' => ¬ has_field k s d') c1
                /\ has_field k s d.
Proof.
  unfold find_one, has_field. revert d. induction c as [|d0 c IH]; intros d; simpl.
  - split; [done|]. intros ([|? ?] & ? & ? & _); discriminate.
  - destruct (matches _ d0) eqn:Hm.
    + apply matches_singleton in Hm. split.
      * intros [= <-]. exists [], c. repeat split; [constructor | done].
      * intros (c1 & c2 & Hc & Hno & Hd). destruct c1 as [|d1 c1].
        -- simpl in Hc. congruence.
        -- simpl in Hc. injection Hc as <- _. by inversion Hno.
    + apply matches_singleton_false in Hm. rewrite IH. split.
      * intros (c1 & c2 & -> & Hno & Hd). exists (d0 :: c1), c2.
        repeat split; [by constructor | done].
      * intros (c1 & c2 & Hc & Hno & Hd). destruct c1 as [|d1 c1].
        -- simpl in Hc. injection Hc as -> _. done.
        -- simpl in Hc. injection Hc as <- ->. exists c1, c2.
           repeat split; [by inversion Hno | done].
Qed.

Lemma find_one_some_elem k s c d :
  find_one c {[ k := VStr s ]} = Some d -> d ∈ c /\ has_field k s d.
Proof.
  intros (c1 & c2 & -> & _ & Hd)%find_one_some. split; [|done].
  apply elem_of_app. right. apply list_elem_of_here.
Qed.

Lemma find_one_exists k s c :
  Exists (has_field k s) c -> is_Some (find_one c {[ k := VStr s ]}).
Proof.
  intros Hex. destruct (find_one c _) eqn:Hf; [by eexists|].
  apply find_one_none in Hf. apply Exists_exists in Hex as (d & Hin & Hd).
  rewrite Forall_forall in Hf. by destruct (Hf d Hin).
Qed.

(** After an append of a matching document to a collection without a
    match, the lookup finds the appended document. *)
Lemma find_one_appended k s c d :
  find_one c {[ k := VStr s ]} = None -> has_field k s d ->
  find_one (c ++ [d]) {[ k := VStr s ]} = Some d.
Proof.
  intros Hnone Hd. apply find_one_some. exists c, [].
  by rewrite <- find_one_none.
Qed.

Lemma collection_insert (m : gmap string (list Document)) name c o :
  collection (MkStore (<[name := c]> m) o) name = c.
Proof. unfold collection. simpl. by rewrite lookup_insert_eq. Qed.

Lemma collection_insert_ne (m : gmap string (list Document)) name name' c o o' :
  name ≠ name' ->
  collection (MkStore (<[name := c]> m) o) name' = collection (MkStore m o') name'.
Proof. intros Hne. unfold collection. simpl. by rewrite lookup_insert_ne. Qed.

(** What [login] reads from the document a registration stored. *)
Lemma stamped_user_email payload o t :
  has_field "email" (reg_email payload) (stamped o t (user_doc_of payload)).
Proof.
  unfold has_field, stamped, user_doc_of. generalize (sha256 (reg_password payload)).
  intros h. reflexivity.
Qed.

Lemma stamped_user_hash payload o t :
  dict_get (doc_fields (stamped o t (user_doc_of payload))) "password_hash"
  = VStr (sha256 (reg_password payload)).
Proof.
  unfold stamped, user_doc_of. generalize (sha256 (reg_password payload)).
  intros h. reflexivity.
Qed.

Lemma stamped_user_name payload o t :
  dict_get (doc_fields (stamped o t (user_doc_of payload))) "name"
  = VStr (reg_name payload).
Proof.
  unfold stamped, user_doc_of. generalize (sha256 (reg_password payload)).
  intros h. reflexivity.
Qed.

Lemma stamped_user_mail payload o t :
  dict_get (doc_fields (stamped o t (user_doc_of payload))) "email"
  = VStr (reg_email payload).
Proof.
  unfold stamped, user_doc_of. generalize (sha256 (reg_password payload)).
  intros h. reflexivity.
Qed.

Lemma stamped_user_plan payload o t :
  dict_get_or (doc_fields (stamped o t (user_doc_of payload))) "plan" (VStr "free")
  = VStr "free".
Proof.
  unfold stamped, user_doc_of. generalize (sha256 (reg_password payload)).
  intros h. reflexivity.
Qed.

Lemma register_connected payload st t :
  register payload (MkWorld (Some st) t) =
  match find_one (collection st "user") {[ "email" := VStr (reg_email payload) ]} with
  | Some _ => (Raise (HTTPException 400 "Email already registered"), MkWorld (Some st) t)
  | None =>
      (Return (user_view (next_oid st) (VStr (reg_name payload))
                         (VStr (reg_email payload)) (VStr "free")),
       MkWorld (Some (MkStore (<["user" := collection st "user"
                                   ++ [stamped (next_oid st) t (user_doc_of payload)]]>
                                (colls st))
                              (N.succ (next_oid st))))
               (N.succ t))
  end.
Proof.
  unfold register, mbind, M_bind, bind, get_db. simpl.
  destruct (find_one _ _) as [u|]; reflexivity.
Qed.

Lemma register_disconnected payload t :
  register payload (MkWorld None t) = (Raise StorageUnavailable, MkWorld None t).
Proof. reflexivity. Qed.

(** C2.  Duplicate-email rejection.  On a connected database: if some
    user document carries the email, [register] raises HTTP 400 and the
    world stays as it was; if none does, [register] returns the new id
    with the name, the email and plan "free", and appends to the user
    collection one document with the payload's name and email, the
    password digest, plan "free" and is_active true, leaving the other
    collections alone; registering the same email once more then fails
    with HTTP 400. *)
Theorem register_duplicate_email (payload again : RegisterRequest) (st : Store) (t : Time) :
  let w := MkWorld (Some st) t in
  (Exists (has_field "email" (reg_email payload)) (collection st "user") ->
   register payload w = (Raise (HTTPException 400 "Email already registered"), w))
  /\
  (Forall (fun d => ¬ has_field "email" (reg_email payload) d) (collection st "user") ->
   exists st',
     let w' := MkWorld (Some st') (N.succ t) in
     register payload w
     = (Return ({[ "id" := VStr (oid_str (next_oid st));
                   "name" := VStr (reg_name payload);
                   "email" := VStr (reg_email payload);
                   "plan" := VStr "free" ]} : pydict), w')
     /\ collection st' "user"
        = collection st "user"
          ++ [stamped (next_oid st) t
                ({[ "name" := VStr (reg_name payload);
                    "email" := VStr (reg_email payload);
                    "password_hash" := VStr (sha256 (reg_password payload));
                    "plan" := VStr "free";
                    "is_active" := VBool true ]} : pydict)]
     /\ (forall name, name ≠ "user" -> collection st' name = collection st name)
     /\ (reg_email again = reg_email payload ->
         register again w'
         = (Raise (HTTPException 400 "Email already registered"), w'))).
Proof.
  intros w. split.
  - intros Hex. unfold w. rewrite register_connected.
    by destruct (find_one_exists _ _ _ Hex) as [u ->].
  - intros Hfresh. apply find_one_none in Hfresh.
    eexists. cbv zeta. unfold w. rewrite register_connected, Hfresh.
    split; [reflexivity|]. split; [apply collection_insert|].
    split; [intros name Hne; destruct st; by apply collection_insert_ne|].
    intros Heq. rewrite register_connected, collection_insert, Heq.
    rewrite find_one_appended; [done | done |].
    apply stamped_user_email.
Qed.

Lemma register_duplicate_email_witness :
  Exists (has_field "email" "ann@example.com") (stored ann_world "user")
  /\ register ann ann_world
     = (Raise (HTTPException 400 "Email already registered"), ann_world)
  /\ Forall (fun d => ¬ has_field "email" "ann@example.com" d) (stored empty_world "user")
  /\ fst (register ann empty_world)
     = Return ({[ "id" := VStr "000000000000000000000001"; "name" := VStr "Ann";
                  "email" := VStr "ann@example.com"; "plan" := VStr "free" ]} : pydict).
Proof.
  assert (Hdup : Exists (has_field "email" "ann@example.com") (stored ann_world "user")).
  { apply Exists_cons_hd. vm_compute. reflexivity. }
  assert (Hfresh : Forall (fun d => ¬ has_field "email" "ann@example.com" d)
                          (stored empty_world "user")).
  { vm_compute. constructor. }
  split; [exact Hdup|]. split.
  - exact (proj1 (register_duplicate_email ann ann (MkStore _ 2) 101) Hdup).
  - split; [exact Hfresh|].
    destruct (proj2 (register_duplicate_email ann ann (MkStore ∅ 1) 100) Hfresh)
      as (st' & Hrun & _).
    unfold empty_world. rewrite Hrun. reflexivity.
Defined.

(** C9.  Register atomicity on failure: when [register] raises the
    HTTP 400 duplicate-email error, the world after the call is the
    world before it, so no collection has gained a document. *)
Theorem register_failure_writes_nothing (payload : RegisterRequest)
    (w w' : World) (detail : string) :
  register payload w = (Raise (HTTPException 400 detail), w') ->
  w' = w /\ forall name, stored w' name = stored w name.
Proof.
  destruct w as [[st|] t].
  - rewrite register_connected. destruct (find_one _ _); [|discriminate].
    intros [= _ <-]. done.
  - rewrite register_disconnected. discriminate.
Qed.

Lemma register_failure_writes_nothing_witness :
  register ann ann_world
  = (Raise (HTTPException 400 "Email already registered"), ann_world)
  /\ forall name, stored ann_world name = stored ann_world name.
Proof.
  assert (Hrun : register ann ann_world
                 = (Raise (HTTPException 400 "Email already registered"), ann_world)).
  { vm_compute. reflexivity. }
  split; [exact Hrun|].
  exact (proj2 (register_failure_writes_nothing ann ann_world ann_world _ Hrun)).
Defined.

Lemma login_connected payload st t :
  login payload (MkWorld (Some st) t) =
  match find_one (collection st "user") {[ "email" := VStr (login_email payload) ]} with
  | None => (Raise (HTTPException 401 "Invalid credentials"), MkWorld (Some st) t)
  | Some user =>
      if bool_decide (dict_get (doc_fields user) "password_hash"
                      ≠ VStr (sha256 (login_password payload)))
      then (Raise (HTTPException 401 "Invalid credentials"), MkWorld (Some st) t)
      else (Return (user_view (doc_id user)
                              (dict_get (doc_fields user) "name")
                              (dict_get (doc_fields user) "email")
                              (dict_get_or (doc_fields user) "plan" (VStr "free"))),
            MkWorld (Some st) t)
  end.
Proof.
  unfold login, mbind, M_bind, bind, get_db. simpl.
  destruct (find_one _ _) as [u|]; [|reflexivity].
  destruct (bool_decide _); reflexivity.
Qed.

(** C1.  Register/login round trip: if [register] returns a response,
    then [login] with the same email and password, run in the world
    that [register] left, returns that same response (id, name, email
    and plan) and changes nothing. *)
Theorem register_login_round_trip (payload : RegisterRequest)
    (w w' : World) (r : pydict) :
  register payload w = (Return r, w') ->
  login (MkLoginRequest (reg_email payload) (reg_password payload)) w'
  = (Return r, w').
Proof.
  destruct w as [[st|] t].
  - rewrite register_connected.
    destruct (find_one _ _) as [u|] eqn:Hfind; [discriminate|].
    intros [= <- <-]. rewrite login_connected, collection_insert.
    cbn [login_email login_password].
    rewrite (find_one_appended _ _ _ _ Hfind) by apply stamped_user_email.
    rewrite stamped_user_hash, stamped_user_name, stamped_user_mail,
      stamped_user_plan.
    rewrite bool_decide_eq_false_2; [reflexivity|].
    intros Hne. by apply Hne.
  - rewrite register_disconnected. discriminate.
Qed.

Lemma register_login_round_trip_witness :
  register ann empty_world = (Return (user_view 1 (VStr "Ann") (VStr "ann@example.com") (VStr "free")), ann_world)
  /\ login ann_login ann_world
     = (Return (user_view 1 (VStr "Ann") (VStr "ann@example.com") (VStr "free")), ann_world).
Proof.
  assert (Hreg : register ann empty_world
                 = (Return (user_view 1 (VStr "Ann") (VStr "ann@example.com") (VStr "free")),
                    ann_world)).
  { vm_compute. reflexivity. }
  split; [exact Hreg|].
  exact (register_login_round_trip ann empty_world ann_world _ Hreg).
Defined.

(** C3.  Unified login failure: [login] raises HTTP 401 "Invalid
    credentials", leaving the world as it was, both when no user
    document carries the email and when user documents carry it but
    none of them stores the digest of the supplied password; the error
    is the same value in the two cases. *)
Theorem login_invalid_credentials (payload : LoginRequest) (w : World) :
  let failure : outcome exn pydict * World :=
    (Raise (HTTPException 401 "Invalid credentials"), w) in
  (Forall (fun d => ¬ has_field "email" (login_email payload) d) (stored w "user") ->
   login payload w = failure)
  /\
  (Exists (has_field "email" (login_email payload)) (stored w "user") ->
   Forall (fun d => has_field "email" (login_email payload) d ->
                    dict_get (doc_fields d) "password_hash"
                    ≠ VStr (sha256 (login_password payload)))
          (stored w "user") ->
   login payload w = failure).
Proof.
  intros failure. unfold failure. destruct w as [[st|] t]; [|by split].
  unfold stored. simpl. rewrite login_connected. split.
  - intros Hnone. apply find_one_none in Hnone. by rewrite Hnone.
  - intros _ Hall. destruct (find_one _ _) as [u|] eqn:Hfind; [|done].
    apply find_one_some_elem in Hfind as [Hin Hu].
    rewrite Forall_forall in Hall.
    by rewrite bool_decide_eq_true_2 by (by apply Hall).
Qed.

Lemma login_invalid_credentials_witness :
  (Forall (fun d => ¬ has_field "email" "ann@example.com" d) (stored empty_world "user")
   /\ login ann_login empty_world
      = (Raise (HTTPException 401 "Invalid credentials"), empty_world))
  /\
  (Exists (has_field "email" "ann@example.com") (stored ann_world "user")
   /\ login (MkLoginRequest "ann@example.com" "secreT") ann_world
      = (Raise (HTTPException 401 "Invalid credentials"), ann_world)).
Proof.
  assert (Hnone : Forall (fun d => ¬ has_field "email" "ann@example.com" d)
                         (stored empty_world "user")).
  { vm_compute. constructor. }
  assert (Hsome : Exists (has_field "email" "ann@example.com") (stored ann_world "user")).
  { apply Exists_cons_hd. vm_compute. reflexivity. }
  assert (Hdiff : Forall (fun d => has_field "email" "ann@example.com" d ->
                                   dict_get (doc_fields d) "password_hash"
                                   ≠ VStr (sha256 "secreT"))
                         (stored ann_world "user")).
  { vm_compute. repeat constructor. intros _. discriminate. }
  split; split; [exact Hnone | | exact Hsome | ].
  - exact (proj1 (login_invalid_credentials ann_login empty_world) Hnone).
  - exact (proj2 (login_invalid_credentials
                    (MkLoginRequest "ann@example.com" "secreT") ann_world) Hsome Hdiff).
Defined.

(** C10 as stated fails for a plan that is stored as None: the login
    succeeds and returns None as the plan, not "free". *)
Lemma login_null_plan_not_defaulted :
  doc_fields planless_user !! "plan" = Some VNone
  /\ login eve_login planless_world
     = (Return (user_view 11 (VStr "Eve") (VStr "eve@example.com") VNone),
        planless_world)
  /\ user_view 11 (VStr "Eve") (VStr "eve@example.com") VNone !! "plan"
     ≠ Some (VStr "free").
Proof.
  split; [vm_compute; reflexivity|]. split; [vm_compute; reflexivity|].
  vm_compute. discriminate.
Qed.

(** C10, amended.  Login plan default: when the first user document
    carrying the login email stores the digest of the supplied password
    and has no plan field (the key is absent), [login] succeeds with
    plan "free"; the id is the document's identifier and the name and
    email are the document's. *)
Theorem login_plan_default (payload : LoginRequest) (w : World)
    (before after : list Document) (user : Document) :
  stored w "user" = before ++ user :: after ->
  Forall (fun d => ¬ has_field "email" (login_email payload) d) before ->
  has_field "email" (login_email payload) user ->
  doc_fields user !! "password_hash" = Some (VStr (sha256 (login_password payload))) ->
  doc_fields user !! "plan" = None ->
  login payload w
  = (Return ({[ "id" := VStr (oid_str (doc_id user));
                "name" := dict_get (doc_fields user) "name";
                "email" := VStr (login_email payload);
                "plan" := VStr "free" ]} : pydict), w).
Proof.
  intros Hstored Hbefore Huser Hhash Hplan.
  destruct w as [[st|] t]; unfold stored in Hstored; simpl in Hstored.
  - rewrite login_connected.
    assert (Hfind : find_one (collection st "user")
                      {[ "email" := VStr (login_email payload) ]} = Some user).
    { apply find_one_some. by exists before, after. }
    rewrite Hfind. unfold dict_get, dict_get_or, user_view.
    rewrite Hhash, Hplan, Huser. cbn [default].
    rewrite bool_decide_eq_false_2; [reflexivity|]. intros Hne. by apply Hne.
  - by destruct before.
Qed.

(** A plan that is present is returned as stored, also when it is None:
    the default only stands in for an absent key. *)
Lemma login_plan_present (payload : LoginRequest) (st : Store) (t : Time)
    (user : Document) (plan : value) :
  find_one (collection st "user") {[ "email" := VStr (login_email payload) ]}
  = Some user ->
  doc_fields user !! "password_hash" = Some (VStr (sha256 (login_password payload))) ->
  doc_fields user !! "plan" = Some plan ->
  exists r, login payload (MkWorld (Some st) t) = (Return r, MkWorld (Some st) t)
            /\ r !! "plan" = Some plan.
Proof.
  intros Hfind Hhash Hplan. rewrite login_connected, Hfind.
  unfold dict_get, dict_get_or. rewrite Hhash, Hplan. cbn [default].
  rewrite bool_decide_eq_false_2 by (intros Hne; by apply Hne).
  eexists. split; reflexivity.
Qed.

Lemma login_plan_default_witness :
  stored legacy_world "user" = [] ++ legacy_user :: []
  /\ login bob_login legacy_world
     = (Return ({[ "id" := VStr "000000000000000000000007";
                   "name" := VStr "Bob";
                   "email" := VStr "bob@example.com";
                   "plan" := VStr "free" ]} : pydict), legacy_world).
Proof.
  assert (Hstored : stored legacy_world "user" = [] ++ legacy_user :: []).
  { vm_compute. reflexivity. }
  split; [exact Hstored|].
  refine (login_plan_default bob_login legacy_world [] [] legacy_user
            Hstored _ _ _ _).
  - constructor.
  - vm_compute. reflexivity.
  - vm_compute. reflexivity.
  - vm_compute. reflexivity.
Defined.

(* ===================================================================== *)
(** ** Blog *)
(* ===================================================================== *)

Lemma create_document_connected name fields st t :
  create_document name fields (MkWorld (Some st) t)
  = (Return (oid_str (next_oid st)),
     MkWorld (Some (MkStore (<[name := collection st name
                                 ++ [stamped (next_oid st) t fields]]> (colls st))
                            (N.succ (next_oid st))))
             (N.succ t)).
Proof. reflexivity. Qed.

Lemma count_documents_all c : count_documents c ∅ = Z.of_nat (length c).
Proof. unfold count_documents. by rewrite filter_matches_empty. Qed.

(** Seeding is skipped without a database and when the collection
    already holds a document. *)
Lemma ensure_sample_blog_posts_skips w :
  stored w "blogpost" ≠ [] \/ db w = None ->
  ensure_sample_blog_posts w = (Return tt, w).
Proof.
  destruct w as [[st|] t]; [|reflexivity].
  intros [Hne|Hnone]; [|discriminate]. unfold stored in Hne. simpl in Hne.
  unfold ensure_sample_blog_posts, mbind, M_bind, bind, get_db. simpl.
  rewrite count_documents_all.
  destruct (collection st "blogpost"); [done|reflexivity].
Qed.

Lemma ensure_sample_blog_posts_seeds st t :
  collection st "blogpost" = [] ->
  ensure_sample_blog_posts (MkWorld (Some st) t)
  = (Return tt,
     MkWorld (Some (MkStore (<["blogpost" := seeded_posts (next_oid st) t]> (colls st))
                            (next_oid st + 3)%N))
             (t + 6)%N).
Proof.
  intros Hempty.
  unfold ensure_sample_blog_posts, mbind, M_bind, bind, get_db, utcnow, mret, M_ret, ret.
  cbn [db clock count_blogposts]. rewrite count_documents_all, Hempty.
  cbn [length Z.of_nat Z.eqb andb bool_decide decide_rel].
  rewrite bool_decide_eq_true_2 by (by eexists).
  cbn [samples for_each bind db clock].
  change (Z.of_nat 0 =? 0) with true. cbn [andb]. cbv beta iota.
  unfold bind at 1. cbn [db clock].
  rewrite create_document_connected, Hempty. cbv beta iota. cbn [app].
  unfold bind at 1. rewrite create_document_connected.
  rewrite collection_insert. cbv beta iota. cbn [app colls next_oid].
  unfold bind at 1. rewrite create_document_connected.
  rewrite collection_insert. cbv beta iota. cbn [app colls next_oid].
  unfold ret. rewrite !insert_insert_eq.
  unfold seeded_posts, samples. cbn [zip_with fst snd].
  replace (t + 1)%N with (N.succ t) by lia.
  replace (t + 2)%N with (N.succ (N.succ t)) by lia.
  replace (t + 3)%N with (N.succ (N.succ (N.succ t))) by lia.
  replace (t + 4)%N with (N.succ (N.succ (N.succ (N.succ t)))) by lia.
  replace (t + 5)%N with (N.succ (N.succ (N.succ (N.succ (N.succ t))))) by lia.
  replace (t + 6)%N with (N.succ (N.succ (N.succ (N.succ (N.succ (N.succ t)))))) by lia.
  replace (next_oid st + 1)%N with (N.succ (next_oid st)) by lia.
  replace (next_oid st + 2)%N with (N.succ (N.succ (next_oid st))) by lia.
  replace (next_oid st + 3)%N with (N.succ (N.succ (N.succ (next_oid st)))) by lia.
  reflexivity.
Qed.

Lemma get_documents_all name limit w :
  get_documents name ∅ limit w
  = (Return (take (Z.to_nat limit) (stored w name)), w).
Proof.
  destruct w as [[st|] t]; unfold get_documents, stored; cbn [db].
  - by rewrite filter_matches_empty.
  - by rewrite take_nil.
Qed.

(** [list_blog] lists what the blogpost collection holds once
    [ensure_sample_blog_posts] has run. *)
Lemma list_blog_after_seeding limit w w' :
  ensure_sample_blog_posts w = (Return tt, w') ->
  list_blog limit w
  = (Return (MkBlogList (blog_items (take (Z.to_nat limit) (stored w' "blogpost")))), w').
Proof.
  intros Hseed. unfold list_blog, mbind, M_bind, bind. rewrite Hseed.
  by rewrite get_documents_all.
Qed.

Lemma ensure_sample_blog_posts_returns w :
  exists w', ensure_sample_blog_posts w = (Return tt, w').
Proof.
  destruct w as [[st|] t].
  - destruct (collection st "blogpost") as [|d c] eqn:Hc.
    + eexists. by apply ensure_sample_blog_posts_seeds.
    + eexists. apply ensure_sample_blog_posts_skips. left.
      unfold stored. cbn [db]. by rewrite Hc.
  - eexists. apply ensure_sample_blog_posts_skips. by right.
Qed.

Lemma blog_items_seeded o t :
  blog_items (seeded_posts o t) = map blog_item (samples t (t + 1) (t + 2))%N.
Proof. reflexivity. Qed.

Lemma blog_item_keys (f : pydict) : keys (blog_item f) = list_keys.
Proof.
  unfold keys, blog_item, list_keys. rewrite !dom_insert_L, dom_singleton_L.
  set_solver.
Qed.

(** C4.  Blog seeding and its idempotence.  On a connected database
    whose blogpost collection is empty, [list_blog] (with a limit of at
    least three, as the default 6 is) leaves the collection holding
    exactly the three sample posts, whose slugs are pairwise distinct,
    touches no other collection, and returns exactly three entries: the
    title, slug, excerpt, author, published_at and tags of the three
    samples, in order, with three distinct slugs and without content; a
    second call returns the same three and leaves the world as it is,
    whatever its limit. *)
Theorem list_blog_seeds_once (st : Store) (t : Time) (limit again : Z) :
  collection st "blogpost" = [] -> 3 <= limit -> 3 <= again ->
  let w := MkWorld (Some st) t in
  let seeded := seeded_posts (next_oid st) t in
  let w1 := MkWorld (Some (MkStore (<["blogpost" := seeded]> (colls st))
                                   (next_oid st + 3)%N))
                    (t + 6)%N in
  let listing :=
    MkBlogList
      [ {[ "title" := VStr "Designing With Pastels: A Gentle UI Aesthetic";
           "slug" := VStr "designing-with-pastels";
           "excerpt" := VStr "How soft color palettes can increase trust and readability in fintech apps.";
           "author" := VStr "Team";
           "published_at" := VDate t;
           "tags" := VList ["design"; "ux"] ]};
        {[ "title" := VStr "Pricing Psychology for SaaS";
           "slug" := VStr "pricing-psychology-saas";
           "excerpt" := VStr "Anchoring, decoys and how to present value tiers.";
           "author" := VStr "Team";
           "published_at" := VDate (t + 1)%N;
           "tags" := VList ["growth"; "pricing"] ]};
        {[ "title" := VStr "Frictionless Onboarding";
           "slug" := VStr "frictionless-onboarding";
           "excerpt" := VStr "Best practices for sign-up and authentication flows.";
           "author" := VStr "Team";
           "published_at" := VDate (t + 2)%N;
           "tags" := VList ["product"; "auth"] ]} ] in
  let slugs := map (fun d => dict_get (doc_fields d) "slug") seeded in
  list_blog limit w = (Return listing, w1)
  /\ stored w1 "blogpost" = seeded
  /\ length seeded = 3%nat
  /\ slugs = [ VStr "designing-with-pastels";
               VStr "pricing-psychology-saas";
               VStr "frictionless-onboarding" ]
  /\ NoDup slugs
  /\ map (fun item : pydict => item !! "slug") (posts listing) = map Some slugs
  /\ Forall (fun item : pydict => keys item = list_keys /\ item !! "content" = None)
            (posts listing)
  /\ Forall2 (fun (d : Document) (item : pydict) =>
                forall k, k ∈ list_keys -> item !! k = doc_fields d !! k)
             seeded (posts listing)
  /\ (forall name, name ≠ "blogpost" -> stored w1 name = stored w name)
  /\ list_blog again w1 = (Return listing, w1)
  /\ (forall any, snd (list_blog any w1) = w1).
Proof.
  intros Hempty Hlimit Hagain w seeded w1 listing slugs.
  assert (Hstored : stored w1 "blogpost" = seeded) by apply collection_insert.
  assert (Hskip : ensure_sample_blog_posts w1 = (Return tt, w1)).
  { apply ensure_sample_blog_posts_skips. left. by rewrite Hstored. }
  assert (Htake : forall l, 3 <= l ->
            blog_items (take (Z.to_nat l) seeded) = posts listing).
  { intros l Hl. rewrite take_ge by (change (length seeded) with 3%nat; lia).
    reflexivity. }
  split.
  { rewrite (list_blog_after_seeding limit w w1)
      by (by apply ensure_sample_blog_posts_seeds).
    by rewrite Hstored, Htake. }
  split; [exact Hstored|]. split; [reflexivity|]. split; [reflexivity|].
  split.
  { change slugs with [ VStr "designing-with-pastels";
                        VStr "pricing-psychology-saas";
                        VStr "frictionless-onboarding" ].
    apply (bool_decide_unpack _). by vm_compute. }
  split; [reflexivity|].
  split.
  { repeat constructor;
      unfold keys, list_keys; rewrite !dom_insert_L, dom_singleton_L; set_solver. }
  split.
  { unfold list_keys.
    repeat constructor; intros k Hk;
      repeat (apply elem_of_union in Hk as [Hk | Hk]);
      apply elem_of_singleton in Hk as ->; reflexivity. }
  split.
  { intros name Hne. unfold stored, w1, w. cbn [db]. destruct st.
    by apply collection_insert_ne. }
  split.
  - rewrite (list_blog_after_seeding again w1 w1 Hskip).
    by rewrite Hstored, Htake.
  - intros any. by rewrite (list_blog_after_seeding any w1 w1 Hskip).
Qed.

Lemma list_blog_seeds_once_witness :
  let listing :=
    MkBlogList
      [ {[ "title" := VStr "Designing With Pastels: A Gentle UI Aesthetic";
           "slug" := VStr "designing-with-pastels";
           "excerpt" := VStr "How soft color palettes can increase trust and readability in fintech apps.";
           "author" := VStr "Team";
           "published_at" := VDate 100;
           "tags" := VList ["design"; "ux"] ]};
        {[ "title" := VStr "Pricing Psychology for SaaS";
           "slug" := VStr "pricing-psychology-saas";
           "excerpt" := VStr "Anchoring, decoys and how to present value tiers.";
           "author" := VStr "Team";
           "published_at" := VDate 101;
           "tags" := VList ["growth"; "pricing"] ]};
        {[ "title" := VStr "Frictionless Onboarding";
           "slug" := VStr "frictionless-onboarding";
           "excerpt" := VStr "Best practices for sign-up and authentication flows.";
           "author" := VStr "Team";
           "published_at" := VDate 102;
           "tags" := VList ["product"; "auth"] ]} ] in
  let seeded_world :=
    MkWorld (Some (MkStore {[ "blogpost" := seeded_posts 1 100 ]} 4)) 106 in
  collection (MkStore ∅ 1) "blogpost" = []
  /\ list_blog default_limit empty_world = (Return listing, seeded_world)
  /\ list_blog default_limit seeded_world = (Return listing, seeded_world).
Proof.
  assert (Hempty : collection (MkStore ∅ 1) "blogpost" = []) by reflexivity.
  assert (Hsix : 3 <= default_limit) by (unfold default_limit; lia).
  pose proof (list_blog_seeds_once (MkStore ∅ 1) 100 default_limit default_limit
                Hempty Hsix Hsix)
    as (Hfirst & _ & _ & _ & _ & _ & _ & _ & _ & Hsecond & _).
  split; [exact Hempty|]. split; [exact Hfirst | exact Hsecond].
Defined.

Lemma Forall2_map_diag {A B} (P : A -> B -> Prop) (f : A -> B) (l : list A) :
  (forall x, P x (f x)) -> Forall2 P l (map f l).
Proof. intros HP. induction l; simpl; constructor; auto. Qed.

Lemma blog_item_listed (d : Document) : listed_as d (blog_item (doc_fields d)).
Proof.
  unfold listed_as. split; [apply blog_item_keys|].
  unfold blog_item, dict_get, dict_get_or.
  destruct (doc_fields d !! "author"), (doc_fields d !! "tags"); repeat split.
Qed.

(** C5 as stated fails for a negative limit: the call returns, and a
    list cannot hold fewer than zero posts. *)
Lemma list_blog_negative_limit :
  fst (list_blog (-1) blog_world) = Return (MkBlogList [])
  /\ ¬ (Z.of_nat (length (posts (MkBlogList []))) <= -1).
Proof.
  split; [vm_compute; reflexivity|]. simpl. lia.
Qed.

(** C5, amended.  Blog list shape and limit: for every limit that is not
    negative, [list_blog] returns, with at most [limit] posts; they are
    the views, in order, of the first documents of the blogpost
    collection, each with exactly the keys title, slug, excerpt, author,
    published_at and tags (so without content), the author being "Team"
    when the document has none. *)
Theorem list_blog_shape (limit : Z) (w : World) :
  0 <= limit ->
  exists r w',
    list_blog limit w = (Return r, w')
    /\ Z.of_nat (length (posts r)) <= limit
    /\ Forall2 listed_as (take (Z.to_nat limit) (stored w' "blogpost")) (posts r).
Proof.
  intros Hlimit. destruct (ensure_sample_blog_posts_returns w) as [w' Hseed].
  eexists _, w'. split; [by apply list_blog_after_seeding|].
  cbn [posts]. unfold blog_items. split.
  - rewrite length_map, length_take. lia.
  - apply Forall2_map_diag, blog_item_listed.
Qed.

Example list_blog_anonymous_post :
  fst (list_blog 1 blog_world)
  = Return (MkBlogList
      [ {[ "title" := VStr "Untitled"; "slug" := VStr "untitled";
           "excerpt" := VNone; "author" := VStr "Team";
           "published_at" := VNone; "tags" := VList [] ]} ]).
Proof. vm_compute. reflexivity. Qed.

Lemma list_blog_shape_witness :
  0 <= 1
  /\ exists r w',
       list_blog 1 blog_world = (Return r, w')
       /\ Z.of_nat (length (posts r)) <= 1
       /\ Forall2 listed_as (take (Z.to_nat 1) (stored w' "blogpost")) (posts r).
Proof.
  assert (Hone : 0 <= 1) by lia.
  split; [exact Hone|]. exact (list_blog_shape 1 blog_world Hone).
Defined.

Lemma get_blog_run slug w :
  get_blog slug w =
  match find_one (stored w "blogpost") {[ "slug" := VStr slug ]} with
  | None => (Raise (HTTPException 404 "Post not found"), w)
  | Some doc =>
      let f := doc_fields doc in
      (Return ({[ "title" := dict_get f "title";
                  "slug" := dict_get f "slug";
                  "excerpt" := dict_get f "excerpt";
                  "content" := dict_get f "content";
                  "author" := dict_get_or f "author" (VStr "Team");
                  "published_at" := dict_get f "published_at";
                  "tags" := dict_get_or f "tags" (VList []) ]} : pydict), w)
  end.
Proof.
  destruct w as [[st|] t]; unfold get_blog, stored, mbind, M_bind, bind, get_db;
    cbn [db find_post]; [|reflexivity].
  destruct (find_one _ _); reflexivity.
Qed.

(** C6.  Blog lookup by slug: [get_blog] raises HTTP 404 when no
    blogpost document carries the slug; when one does, it returns the
    full record (title, slug, excerpt, content, author, published_at,
    tags) of a stored blogpost document that carries exactly that slug,
    the first such one, so the returned slug is the requested one and
    the content is the document's.  The world is left as it was. *)
Theorem get_blog_by_slug (slug : string) (w : World) :
  (Forall (fun d => ¬ has_field "slug" slug d) (stored w "blogpost") ->
   get_blog slug w = (Raise (HTTPException 404 "Post not found"), w))
  /\
  (Exists (has_field "slug" slug) (stored w "blogpost") ->
   exists before doc after r,
     stored w "blogpost" = before ++ doc :: after
     /\ Forall (fun d => ¬ has_field "slug" slug d) before
     /\ has_field "slug" slug doc
     /\ get_blog slug w = (Return r, w)
     /\ shown_as doc r
     /\ r !! "slug" = Some (VStr slug)).
Proof.
  rewrite get_blog_run. split.
  - intros Hnone. apply find_one_none in Hnone. by rewrite Hnone.
  - intros Hsome. destruct (find_one_exists _ _ _ Hsome) as [doc Hfind].
    rewrite Hfind. apply find_one_some in Hfind as (before & after & Hsplit & Hno & Hdoc).
    eexists before, doc, after, _. split; [exact Hsplit|].
    split; [exact Hno|]. split; [exact Hdoc|]. split; [reflexivity|].
    unfold has_field in Hdoc. split.
    + unfold shown_as, dict_get, dict_get_or. split.
      * unfold keys, record_keys. rewrite !dom_insert_L, dom_singleton_L. set_solver.
      * destruct (doc_fields doc !! "author"), (doc_fields doc !! "tags");
          repeat split.
    + unfold dict_get. by rewrite Hdoc.
Qed.

Lemma get_blog_by_slug_witness :
  (Forall (fun d => ¬ has_field "slug" "missing" d) (stored blog_world "blogpost")
   /\ get_blog "missing" blog_world
      = (Raise (HTTPException 404 "Post not found"), blog_world))
  /\
  (Exists (has_field "slug" "hello") (stored blog_world "blogpost")
   /\ exists before doc after r,
        stored blog_world "blogpost" = before ++ doc :: after
        /\ Forall (fun d => ¬ has_field "slug" "hello" d) before
        /\ has_field "slug" "hello" doc
        /\ get_blog "hello" blog_world = (Return r, blog_world)
        /\ shown_as doc r
        /\ r !! "slug" = Some (VStr "hello")).
Proof.
  assert (Hnone : Forall (fun d => ¬ has_field "slug" "missing" d)
                         (stored blog_world "blogpost")).
  { vm_compute. repeat constructor; discriminate. }
  assert (Hsome : Exists (has_field "slug" "hello") (stored blog_world "blogpost")).
  { apply Exists_cons_tl, Exists_cons_hd. vm_compute. reflexivity. }
  split; (split; [assumption|]).
  - exact (proj1 (get_blog_by_slug "missing" blog_world) Hnone).
  - exact (proj2 (get_blog_by_slug "hello" blog_world) Hsome).
Defined.

(* ===================================================================== *)
(** ** Contact *)
(* ===================================================================== *)

(** C8.  Contact intake.  On a connected database, [contact] appends to
    the contactmessage collection exactly one document, whose name,
    email and message are the payload's and whose status is "new",
    leaves the other collections alone, and returns that document's id
    with status "received", which is not the stored status. *)
Theorem contact_stores_new (payload : ContactRequest) (st : Store) (t : Time) :
  let w := MkWorld (Some st) t in
  exists st' doc,
    contact payload w
    = (Return ({[ "id" := VStr (oid_str (doc_id doc));
                  "status" := VStr "received" ]} : pydict),
       MkWorld (Some st') (N.succ t))
    /\ collection st' "contactmessage" = collection st "contactmessage" ++ [doc]
    /\ (forall name, name ≠ "contactmessage" -> collection st' name = collection st name)
    /\ doc_id doc = next_oid st
    /\ doc_fields doc !! "name" = Some (VStr (contact_name payload))
    /\ doc_fields doc !! "email" = Some (VStr (contact_email payload))
    /\ doc_fields doc !! "message" = Some (VStr (contact_message payload))
    /\ doc_fields doc !! "status" = Some (VStr "new")
    /\ VStr "received" ≠ VStr "new".
Proof.
  intros w. eexists _, (stamped (next_oid st) t _).
  split; [unfold contact, mbind, M_bind, bind, w;
          rewrite create_document_connected; reflexivity|].
  split; [apply collection_insert|].
  split; [intros name Hne; destruct st; by apply collection_insert_ne|].
  repeat split. discriminate.
Qed.

Example contact_hello :
  fst (contact hello empty_world)
  = Return ({[ "id" := VStr "000000000000000000000001";
               "status" := VStr "received" ]} : pydict)
  /\ stored (snd (contact hello empty_world)) "contactmessage"
     = [ stamped 1 100 {[ "name" := VStr "Cy"; "email" := VStr "cy@example.com";
                          "message" := VStr "Hello there"; "status" := VStr "new" ]} ].
Proof. split; vm_compute; reflexivity. Qed.

(** Without a database the write fails. *)
Lemma contact_disconnected payload t :
  contact payload (MkWorld None t) = (Raise StorageUnavailable, MkWorld None t).
Proof. reflexivity. Qed.

(* ===================================================================== *)
(** ** The diagnostic endpoint *)
(* ===================================================================== *)

(** A slice of [n] characters is a prefix that ends where a character
    ends, and holds [n] characters or the whole text. *)
Lemma take_chars_split (n : nat) (s : string) :
  exists rest,
    s = take_chars n s +:+ rest
    /\ code_points (take_chars n s) = Nat.min n (code_points s)
    /\ starts_char rest.
Proof.
  revert n. induction s as [|c s IH]; intros n.
  - exists "". cbn [take_chars code_points]. rewrite Nat.min_0_r. by repeat split.
  - cbn [take_chars code_points]. destruct (is_continuation c) eqn:Hc.
    + destruct (IH n) as (rest & Hsplit & Hcount & Hrest). exists rest.
      split; [rewrite Hsplit at 1; reflexivity|].
      split; [cbn [code_points]; by rewrite Hc | exact Hrest].
    + destruct n as [|n].
      * exists (String c s). by repeat split.
      * destruct (IH n) as (rest & Hsplit & Hcount & Hrest). exists rest.
        split; [rewrite Hsplit at 1; reflexivity|].
        split; [cbn [code_points]; by rewrite Hc, Hcount | exact Hrest].
Qed.

(** C7.  Diagnostic endpoint total: for every environment and every
    handle, whatever its operations raise, [test_database] returns a
    response and never raises.  An error of [list_collection_names] is
    reported as "Connected but Error: " followed by the first 80
    characters of its message, an error of the [name] attribute as
    "Error: " followed by the first 80 characters of its message.  That
    slice is exactly the first 80 characters: the message is the slice
    followed by a rest that begins at a character, and the slice holds
    80 characters, or all of them when the message has fewer. *)
Theorem test_database_total (environ : gmap string string)
    (d : option Diagnostic.DbHandle) :
  exists r,
    Diagnostic.test_database environ d = Return r
    /\ match d with
       | None => r = Diagnostic.initial_response
       | Some h =>
           match Diagnostic.name h, Diagnostic.collection_names h with
           | Diagnostic.AttrRaises msg, _ =>
               r !! "database"
               = Some (VStr ("❌ Error: " +:+ Diagnostic.first80 msg))
           | _, Raise msg =>
               r !! "database"
               = Some (VStr ("⚠️ Connected but Error: " +:+ Diagnostic.first80 msg))
           | _, Return cs =>
               r !! "database" = Some (VStr "✅ Connected & Working")
               /\ r !! "collections" = Some (VList cs)
           end
       end
    /\ (forall msg,
          exists rest,
            msg = Diagnostic.first80 msg +:+ rest
            /\ code_points (Diagnostic.first80 msg) = Nat.min 80 (code_points msg)
            /\ starts_char rest).
Proof.
  assert (Hslice : forall msg,
            exists rest,
              msg = Diagnostic.first80 msg +:+ rest
              /\ code_points (Diagnostic.first80 msg) = Nat.min 80 (code_points msg)
              /\ starts_char rest).
  { intros msg. apply take_chars_split. }
  destruct d as [[nm cs]|].
  - destruct nm as [|v|msg], cs as [names|msg'];
      (eexists; split; [reflexivity|]; split; [|exact Hslice]);
      cbn [Diagnostic.name Diagnostic.collection_names];
      try split; reflexivity.
  - eexists. split; [reflexivity|]. split; [reflexivity | exact Hslice].
Qed.

(** The slice counts characters: of 81 two-byte characters it keeps 80,
    which are 160 bytes. *)
Example first80_counts_characters :
  code_points accented_message = 81%nat
  /\ Diagnostic.first80 accented_message = String.concat "" (List.repeat "é" 80)
  /\ String.length (Diagnostic.first80 accented_message) = 160%nat.
Proof. vm_compute. repeat split. Qed.

Example test_database_accented_error :
  Diagnostic.test_database ∅
    (Some (Diagnostic.MkDbHandle Diagnostic.NoAttr (Raise accented_message)))
  = Return (<["database" := VStr ("⚠️ Connected but Error: "
                                 +:+ String.concat "" (List.repeat "é" 80))]>
            (<["database_name" := VStr "✅ Connected"]>
             (<["connection_status" := VStr "Connected"]>
              Diagnostic.initial_response))).
Proof. vm_compute. reflexivity. Qed.

Example test_database_long_error :
  Diagnostic.test_database ∅
    (Some (Diagnostic.MkDbHandle (Diagnostic.Attr "app")
       (Raise "0123456789012345678901234567890123456789012345678901234567890123456789012345678901234567890123456789")))
  = Return (<["database" := VStr "⚠️ Connected but Error: 01234567890123456789012345678901234567890123456789012345678901234567890123456789"]>
            (<["database_name" := VStr "app"]>
             (<["connection_status" := VStr "Connected"]>
              Diagnostic.initial_response))).
Proof. vm_compute. reflexivity. Qed.

(* ===================================================================== *)
(** ** Further properties: login *)
(* ===================================================================== *)

(** X1.  A login that succeeds is backed by the store: the first user
    document carrying the email stores the digest of the supplied
    password, the response is built from that document, and the world
    is left as it was. *)
Theorem login_success_sound (payload : LoginRequest) (w w' : World) (r : pydict) :
  login payload w = (Return r, w') ->
  w' = w
  /\ exists before user after,
       stored w "user" = before ++ user :: after
       /\ Forall (fun d => ¬ has_field "email" (login_email payload) d) before
       /\ has_field "email" (login_email payload) user
       /\ doc_fields user !! "password_hash"
          = Some (VStr (sha256 (login_password payload)))
       /\ r = {[ "id" := VStr (oid_str (doc_id user));
                 "name" := dict_get (doc_fields user) "name";
                 "email" := VStr (login_email payload);
                 "plan" := dict_get_or (doc_fields user) "plan" (VStr "free") ]}.
Proof.
  destruct w as [[st|] t]; [|discriminate].
  rewrite login_connected.
  destruct (find_one _ _) as [user|] eqn:Hfind; [|discriminate].
  case_bool_decide as Hhash; [discriminate|].
  intros [= <- <-]. split; [reflexivity|].
  apply find_one_some in Hfind as (before & after & Hsplit & Hno & Huser).
  exists before, user, after. unfold stored. cbn [db].
  repeat split; try assumption.
  - unfold dict_get in Hhash.
    destruct (doc_fields user !! "password_hash") as [v|]; simpl in Hhash;
      [by subst | discriminate].
  - unfold user_view, dict_get at 2. unfold has_field in Huser.
    by rewrite Huser.
Qed.

Lemma login_success_sound_witness :
  login ann_login ann_world
  = (Return (user_view 1 (VStr "Ann") (VStr "ann@example.com") (VStr "free")),
     ann_world)
  /\ exists before user after,
       stored ann_world "user" = before ++ user :: after
       /\ Forall (fun d => ¬ has_field "email" "ann@example.com" d) before
       /\ has_field "email" "ann@example.com" user
       /\ doc_fields user !! "password_hash" = Some (VStr (sha256 "secret")).
Proof.
  assert (Hrun : login ann_login ann_world
                 = (Return (user_view 1 (VStr "Ann") (VStr "ann@example.com")
                                      (VStr "free")), ann_world)).
  { vm_compute. reflexivity. }
  split; [exact Hrun|].
  destruct (login_success_sound ann_login ann_world ann_world _ Hrun)
    as (_ & before & user & after & Hsplit & Hno & Huser & Hhash & _).
  exists before, user, after. auto.
Defined.

(** X2.  What the auth handlers answer: every response of [register]
    and every response of [login] has exactly the keys id, name, email
    and plan, whatever else the stored document holds; in particular
    neither the password nor its digest is sent back. *)
Theorem auth_responses_hide_hash (reg : RegisterRequest) (log : LoginRequest)
    (w : World) :
  (forall r w', register reg w = (Return r, w') ->
                keys r = auth_keys /\ r !! "password_hash" = None
                /\ r !! "password" = None)
  /\
  (forall r w', login log w = (Return r, w') ->
                keys r = auth_keys /\ r !! "password_hash" = None
                /\ r !! "password" = None).
Proof.
  assert (Hview : forall o a b c,
            keys (user_view o a b c) = auth_keys
            /\ user_view o a b c !! "password_hash" = None
            /\ user_view o a b c !! "password" = None).
  { intros o a b c. unfold keys, user_view, auth_keys. split; [|by split].
    rewrite !dom_insert_L, dom_singleton_L. set_solver. }
  destruct w as [[st|] t]; split; intros r w'.
  - rewrite register_connected. destruct (find_one _ _); [discriminate|].
    intros [= <- _]. apply Hview.
  - rewrite login_connected. destruct (find_one _ _); [|discriminate].
    case_bool_decide; [discriminate|]. intros [= <- _]. apply Hview.
  - rewrite register_disconnected. discriminate.
  - discriminate.
Qed.

Lemma auth_responses_hide_hash_witness :
  login ann_login ann_world
  = (Return (user_view 1 (VStr "Ann") (VStr "ann@example.com") (VStr "free")),
     ann_world)
  /\ keys (user_view 1 (VStr "Ann") (VStr "ann@example.com") (VStr "free"))
     = auth_keys.
Proof.
  assert (Hrun : login ann_login ann_world
                 = (Return (user_view 1 (VStr "Ann") (VStr "ann@example.com")
                                      (VStr "free")), ann_world)).
  { vm_compute. reflexivity. }
  split; [exact Hrun|].
  exact (proj1 (proj2 (auth_responses_hide_hash ann ann_login ann_world) _ _ Hrun)).
Defined.

(** X3.  [login] does not look at is_active: an account whose document
    says is_active false logs in like any other, with its stored plan. *)
Theorem login_ignores_is_active (payload : LoginRequest) (w : World)
    (before after : list Document) (user : Document) (plan : value) :
  stored w "user" = before ++ user :: after ->
  Forall (fun d => ¬ has_field "email" (login_email payload) d) before ->
  has_field "email" (login_email payload) user ->
  doc_fields user !! "password_hash" = Some (VStr (sha256 (login_password payload))) ->
  doc_fields user !! "is_active" = Some (VBool false) ->
  doc_fields user !! "plan" = Some plan ->
  login payload w
  = (Return ({[ "id" := VStr (oid_str (doc_id user));
                "name" := dict_get (doc_fields user) "name";
                "email" := VStr (login_email payload);
                "plan" := plan ]} : pydict), w).
Proof.
  intros Hstored Hbefore Huser Hhash _ Hplan.
  destruct w as [[st|] t]; unfold stored in Hstored; cbn [db] in Hstored.
  - rewrite login_connected.
    assert (Hfind : find_one (collection st "user")
                      {[ "email" := VStr (login_email payload) ]} = Some user).
    { apply find_one_some. by exists before, after. }
    rewrite Hfind. unfold dict_get, dict_get_or, user_view.
    rewrite Hhash, Hplan, Huser. cbn [default].
    rewrite bool_decide_eq_false_2; [reflexivity|]. intros Hne. by apply Hne.
  - by destruct before.
Qed.

Lemma login_ignores_is_active_witness :
  stored dormant_world "user" = [] ++ dormant_user :: []
  /\ doc_fields dormant_user !! "is_active" = Some (VBool false)
  /\ login dee_login dormant_world
     = (Return ({[ "id" := VStr "000000000000000000000009";
                   "name" := VStr "Dee";
                   "email" := VStr "dee@example.com";
                   "plan" := VStr "pro" ]} : pydict), dormant_world).
Proof.
  assert (Hstored : stored dormant_world "user" = [] ++ dormant_user :: []).
  { vm_compute. reflexivity. }
  assert (Hoff : doc_fields dormant_user !! "is_active" = Some (VBool false)).
  { vm_compute. reflexivity. }
  split; [exact Hstored|]. split; [exact Hoff|].
  refine (login_ignores_is_active dee_login dormant_world [] [] dormant_user
            (VStr "pro") Hstored _ _ _ Hoff _).
  - constructor.
  - vm_compute. reflexivity.
  - vm_compute. reflexivity.
  - vm_compute. reflexivity.
Defined.

(* ===================================================================== *)
(** ** Further properties: how the handlers compose *)
(* ===================================================================== *)

(** The outcome of [login] is a function of the user collection. *)
Lemma login_outcome payload w :
  fst (login payload w) =
  match find_one (stored w "user") {[ "email" := VStr (login_email payload) ]} with
  | None => Raise (HTTPException 401 "Invalid credentials")
  | Some user =>
      if bool_decide (dict_get (doc_fields user) "password_hash"
                      ≠ VStr (sha256 (login_password payload)))
      then Raise (HTTPException 401 "Invalid credentials")
      else Return (user_view (doc_id user)
                             (dict_get (doc_fields user) "name")
                             (dict_get (doc_fields user) "email")
                             (dict_get_or (doc_fields user) "plan" (VStr "free")))
  end.
Proof.
  destruct w as [[st|] t]; [|reflexivity].
  rewrite login_connected. unfold stored. cbn [db].
  destruct (find_one _ _); [|reflexivity]. by destruct (bool_decide _).
Qed.

Lemma find_one_app_some c c' flt d :
  find_one c flt = Some d -> find_one (c ++ c') flt = Some d.
Proof.
  unfold find_one. induction c as [|d0 c IH]; simpl; [discriminate|].
  destruct (matches flt d0); auto.
Qed.

(** What [register] leaves in the user collection. *)
Lemma register_users payload w :
  stored (snd (register payload w)) "user" = stored w "user"
  \/ (Forall (fun d => ¬ has_field "email" (reg_email payload) d) (stored w "user")
      /\ exists o t,
           stored (snd (register payload w)) "user"
           = stored w "user" ++ [stamped o t (user_doc_of payload)]).
Proof.
  destruct w as [[st|] t]; [|by left].
  rewrite register_connected.
  destruct (find_one _ _) eqn:Hfind; [by left|]. right.
  apply find_one_none in Hfind. split; [exact Hfind|].
  eexists _, _. unfold stored. cbn [snd db]. by rewrite collection_insert.
Qed.

(** X4.  Registration never breaks an account: a login that succeeds
    before a call of [register] (with any payload, whether the call
    succeeds or fails) succeeds after it with the same response. *)
Theorem register_keeps_existing_logins (reg : RegisterRequest)
    (log : LoginRequest) (w : World) (r : pydict) :
  fst (login log w) = Return r ->
  fst (login log (snd (register reg w))) = Return r.
Proof.
  rewrite !login_outcome.
  destruct (register_users reg w) as [-> | (_ & o & t & ->)]; [done|].
  destruct (find_one (stored w "user") _) as [user|] eqn:Hfind; [|discriminate].
  by rewrite (find_one_app_some _ _ _ _ Hfind).
Qed.

Lemma register_keeps_existing_logins_witness :
  fst (login ann_login ann_world)
  = Return (user_view 1 (VStr "Ann") (VStr "ann@example.com") (VStr "free"))
  /\ fst (login ann_login
            (snd (register (MkRegisterRequest "Bob" "bob@example.com" "hunter2")
                           ann_world)))
     = Return (user_view 1 (VStr "Ann") (VStr "ann@example.com") (VStr "free")).
Proof.
  assert (Hrun : fst (login ann_login ann_world)
                 = Return (user_view 1 (VStr "Ann") (VStr "ann@example.com")
                                     (VStr "free"))).
  { vm_compute. reflexivity. }
  split; [exact Hrun|].
  exact (register_keeps_existing_logins _ ann_login ann_world _ Hrun).
Defined.

(** Appending a document whose only email is one the collection does
    not hold yet keeps emails unique. *)
Lemma unique_emails_snoc (c : list Document) (d : Document) (email : string) :
  unique_emails c ->
  Forall (fun d' => ¬ has_field "email" email d') c ->
  (forall e, has_field "email" e d -> e = email) ->
  unique_emails (c ++ [d]).
Proof.
  intros Huniq Hfresh Hnew. rewrite Forall_forall in Hfresh.
  intros i j d1 d2 e Hi Hj H1 H2.
  apply lookup_app_Some in Hi as [Hi | [Hlen1 Hi]];
    apply lookup_app_Some in Hj as [Hj | [Hlen2 Hj]].
  - by apply (Huniq i j d1 d2 e).
  - apply list_lookup_singleton_Some in Hj as [_ <-].
    apply Hnew in H2 as ->. destruct (Hfresh d1); [|done].
    by apply list_elem_of_lookup_2 in Hi.
  - apply list_lookup_singleton_Some in Hi as [_ <-].
    apply Hnew in H1 as ->. destruct (Hfresh d2); [|done].
    by apply list_elem_of_lookup_2 in Hj.
  - apply list_lookup_singleton_Some in Hi as [Hi _].
    apply list_lookup_singleton_Some in Hj as [Hj _]. lia.
Qed.

Lemma stamped_user_only_email payload o t e :
  has_field "email" e (stamped o t (user_doc_of payload)) -> e = reg_email payload.
Proof.
  intros He. pose proof (stamped_user_email payload o t) as Hmail.
  unfold has_field in *. congruence.
Qed.

(** X5.  Registration keeps emails unique: if no two user documents
    carry the same email before a call of [register], none do after
    it, whether the call succeeds or fails. *)
Theorem register_keeps_emails_unique (reg : RegisterRequest) (w : World) :
  unique_emails (stored w "user") ->
  unique_emails (stored (snd (register reg w)) "user").
Proof.
  intros Huniq.
  destruct (register_users reg w) as [-> | (Hfresh & o & t & ->)]; [done|].
  apply (unique_emails_snoc _ _ (reg_email reg)); [done | done |].
  intros e. apply stamped_user_only_email.
Qed.

Lemma register_keeps_emails_unique_witness :
  unique_emails (stored ann_world "user")
  /\ unique_emails
       (stored (snd (register (MkRegisterRequest "Bob" "bob@example.com" "hunter2")
                              ann_world)) "user").
Proof.
  assert (Hone : unique_emails (stored ann_world "user")).
  { change (stored ann_world "user") with [stamped 1 100 (user_doc_of ann)].
    intros i j d1 d2 e Hi Hj _ _.
    apply list_lookup_singleton_Some in Hi as [Hi _].
    apply list_lookup_singleton_Some in Hj as [Hj _]. lia. }
  split; [exact Hone|].
  exact (register_keeps_emails_unique _ ann_world Hone).
Defined.

(** What [contact] leaves in the collections it does not write. *)
Lemma contact_other_collections payload w name :
  name ≠ "contactmessage" ->
  stored (snd (contact payload w)) name = stored w name.
Proof.
  intros Hne. destruct w as [[st|] t]; [|reflexivity].
  unfold contact, mbind, M_bind, bind. rewrite create_document_connected.
  unfold stored. cbn [snd db]. destruct st. by apply collection_insert_ne.
Qed.

(** X6.  A contact submission disturbs neither accounts nor posts:
    after any call of [contact], every login and every lookup of a post
    by slug has the outcome it had before. *)
Theorem contact_leaves_accounts_and_posts (payload : ContactRequest)
    (log : LoginRequest) (slug : string) (w : World) :
  fst (login log (snd (contact payload w))) = fst (login log w)
  /\ fst (get_blog slug (snd (contact payload w))) = fst (get_blog slug w).
Proof.
  split.
  - rewrite !login_outcome. by rewrite contact_other_collections.
  - rewrite !get_blog_run. rewrite contact_other_collections by done.
    by destruct (find_one _ _).
Qed.

(* ===================================================================== *)
(** ** Further properties: blog *)
(* ===================================================================== *)

Lemma seeded_world_blogposts st t :
  stored (MkWorld (Some (MkStore
            (<["blogpost" := seeded_posts (next_oid st) t]> (colls st))
            (next_oid st + 3)%N)) (t + 6)%N) "blogpost"
  = seeded_posts (next_oid st) t.
Proof. apply collection_insert. Qed.

(** Once seeding has run, running it again changes nothing. *)
Lemma ensure_sample_blog_posts_settles w w1 :
  ensure_sample_blog_posts w = (Return tt, w1) ->
  ensure_sample_blog_posts w1 = (Return tt, w1).
Proof.
  destruct w as [[st|] t].
  - destruct (collection st "blogpost") as [|d c] eqn:Hc.
    + rewrite (ensure_sample_blog_posts_seeds st t Hc). intros [= <-].
      apply ensure_sample_blog_posts_skips. left.
      by rewrite seeded_world_blogposts.
    + assert (Hskip : ensure_sample_blog_posts (MkWorld (Some st) t)
                      = (Return tt, MkWorld (Some st) t)).
      { apply ensure_sample_blog_posts_skips. left. unfold stored. cbn [db].
        by rewrite Hc. }
      rewrite Hskip. by intros [= <-].
  - intros [= <-]. reflexivity.
Qed.

(** X7.  Seeding is idempotent on every world: after one run of
    [ensure_sample_blog_posts] a second run changes nothing; a connected
    database then has a blogpost collection that is not empty; a
    collection that already held a document is left exactly as it was;
    and no other collection is ever touched. *)
Theorem ensure_sample_blog_posts_idempotent (w : World) :
  let w1 := snd (ensure_sample_blog_posts w) in
  ensure_sample_blog_posts w1 = (Return tt, w1)
  /\ (is_Some (db w) -> stored w1 "blogpost" ≠ [])
  /\ (stored w "blogpost" ≠ [] -> w1 = w)
  /\ (forall name, name ≠ "blogpost" -> stored w1 name = stored w name).
Proof.
  intros w1. split.
  { destruct (ensure_sample_blog_posts_returns w) as [w' Hrun].
    unfold w1. rewrite Hrun. cbn [snd].
    by apply (ensure_sample_blog_posts_settles w). }
  unfold w1. clear w1. destruct w as [[st|] t].
  - destruct (collection st "blogpost") as [|d c] eqn:Hc.
    + rewrite (ensure_sample_blog_posts_seeds st t Hc). cbn [snd].
      split; [intros _; by rewrite seeded_world_blogposts|].
      split; [unfold stored; cbn [db]; by rewrite Hc|].
      intros name Hne. unfold stored. cbn [db]. destruct st.
      by apply collection_insert_ne.
    + assert (Hskip : ensure_sample_blog_posts (MkWorld (Some st) t)
                      = (Return tt, MkWorld (Some st) t)).
      { apply ensure_sample_blog_posts_skips. left. unfold stored. cbn [db].
        by rewrite Hc. }
      rewrite Hskip. cbn [snd].
      split; [intros _; unfold stored; cbn [db]; by rewrite Hc|]. by split.
  - cbn [snd ensure_sample_blog_posts]. repeat split.
    by intros [? ?].
Qed.

Lemma ensure_sample_blog_posts_idempotent_witness :
  is_Some (db empty_world)
  /\ stored (snd (ensure_sample_blog_posts empty_world)) "blogpost" ≠ []
  /\ stored blog_world "blogpost" ≠ []
  /\ snd (ensure_sample_blog_posts blog_world) = blog_world.
Proof.
  assert (Hdb : is_Some (db empty_world)) by (by eexists).
  assert (Hposts : stored blog_world "blogpost" ≠ []) by (vm_compute; discriminate).
  destruct (ensure_sample_blog_posts_idempotent empty_world) as (_ & Hfilled & _).
  destruct (ensure_sample_blog_posts_idempotent blog_world) as (_ & _ & Hkept & _).
  split; [exact Hdb|]. split; [exact (Hfilled Hdb)|].
  split; [exact Hposts | exact (Hkept Hposts)].
Defined.

(** X8.  [list_blog] is idempotent on every world and for every limit:
    it always returns, and a second call with the same limit returns
    the same listing and leaves the world the first call produced. *)
Theorem list_blog_idempotent (limit : Z) (w : World) :
  exists listing w1,
    list_blog limit w = (Return listing, w1)
    /\ list_blog limit w1 = (Return listing, w1).
Proof.
  destruct (ensure_sample_blog_posts_returns w) as [w1 Hseed].
  pose proof (ensure_sample_blog_posts_settles w w1 Hseed) as Hagain.
  eexists _, w1. split; by apply list_blog_after_seeding.
Qed.

(** The list view of a document is its single-post view without the
    content. *)
Lemma record_without_content (f : pydict) :
  delete "content"
    ({[ "title" := dict_get f "title";
        "slug" := dict_get f "slug";
        "excerpt" := dict_get f "excerpt";
        "content" := dict_get f "content";
        "author" := dict_get_or f "author" (VStr "Team");
        "published_at" := dict_get f "published_at";
        "tags" := dict_get_or f "tags" (VList []) ]} : pydict)
  = blog_item f.
Proof.
  unfold blog_item.
  generalize (dict_get f "title"), (dict_get f "slug"), (dict_get f "excerpt"),
    (dict_get f "content"), (dict_get_or f "author" (VStr "Team")),
    (dict_get f "published_at"), (dict_get_or f "tags" (VList [])).
  intros. reflexivity.
Qed.

(** X9.  The seeded posts can be fetched: after [list_blog] has run on a
    connected database whose blogpost collection was empty, [get_blog]
    with the slug of any of the sample posts returns exactly that
    sample post (title, slug, excerpt, content, author, tags and
    published_at). *)
Theorem seeded_posts_retrievable (st : Store) (t : Time) (limit : Z)
    (post : pydict) (slug : string) :
  collection st "blogpost" = [] ->
  post ∈ samples t (t + 1) (t + 2)%N ->
  post !! "slug" = Some (VStr slug) ->
  fst (get_blog slug (snd (list_blog limit (MkWorld (Some st) t)))) = Return post.
Proof.
  intros Hempty Hpost Hslug.
  rewrite (list_blog_after_seeding limit _ _ (ensure_sample_blog_posts_seeds st t Hempty)).
  cbn [snd]. rewrite get_blog_run, seeded_world_blogposts.
  unfold samples in Hpost.
  repeat (apply elem_of_cons in Hpost as [-> | Hpost]);
    [| | | by apply elem_of_nil in Hpost];
    vm_compute in Hslug; injection Hslug as <-; vm_compute; reflexivity.
Qed.

Lemma seeded_posts_retrievable_witness :
  collection (MkStore ∅ 1) "blogpost" = []
  /\ fst (get_blog "pricing-psychology-saas" (snd (list_blog default_limit empty_world)))
     = Return ({[ "title" := VStr "Pricing Psychology for SaaS";
                  "slug" := VStr "pricing-psychology-saas";
                  "excerpt" := VStr "Anchoring, decoys and how to present value tiers.";
                  "content" := VStr "<p>Great pricing pages tell a story of value...</p>";
                  "author" := VStr "Team";
                  "tags" := VList ["growth"; "pricing"];
                  "published_at" := VDate 101 ]} : pydict).
Proof.
  assert (Hempty : collection (MkStore ∅ 1) "blogpost" = []) by reflexivity.
  split; [exact Hempty|].
  refine (seeded_posts_retrievable (MkStore ∅ 1) 100 default_limit _
            "pricing-psychology-saas" Hempty _ _).
  - apply list_elem_of_further, list_elem_of_here.
  - vm_compute. reflexivity.
Defined.

(** X10.  The list view agrees with the single-post view: whenever
    [get_blog] returns a record, [list_blog] with a limit that covers
    the collection returns, without changing the world, a listing that
    contains that record without its content. *)
Theorem list_blog_shows_fetched_post (slug : string) (w : World) (r : pydict)
    (limit : Z) :
  fst (get_blog slug w) = Return r ->
  Z.of_nat (length (stored w "blogpost")) <= limit ->
  exists listing,
    list_blog limit w = (Return listing, w)
    /\ delete "content" r ∈ posts listing.
Proof.
  rewrite get_blog_run. intros Hget Hlimit.
  destruct (find_one _ _) as [doc|] eqn:Hfind; [|discriminate].
  cbn [fst] in Hget. injection Hget as <-.
  apply find_one_some_elem in Hfind as [Hin _].
  assert (Hskip : ensure_sample_blog_posts w = (Return tt, w)).
  { apply ensure_sample_blog_posts_skips. left. intros Hnil.
    rewrite Hnil in Hin. by apply elem_of_nil in Hin. }
  eexists. split; [by apply list_blog_after_seeding|].
  cbn [posts]. rewrite take_ge by lia. rewrite record_without_content.
  unfold blog_items. apply list_elem_of_In, in_map_iff.
  exists doc. split; [reflexivity|]. by apply list_elem_of_In.
Qed.

Lemma list_blog_shows_fetched_post_witness :
  (exists r, fst (get_blog "hello" blog_world) = Return r
             /\ exists listing,
                  list_blog 2 blog_world = (Return listing, blog_world)
                  /\ delete "content" r ∈ posts listing).
Proof.
  assert (Hget : fst (get_blog "hello" blog_world)
                 = Return (<["content" := VStr "<p>hello</p>"]>
                             (blog_item (doc_fields signed_post)))).
  { vm_compute. reflexivity. }
  eexists. split; [exact Hget|].
  apply (list_blog_shows_fetched_post "hello" blog_world _ 2 Hget).
  vm_compute. discriminate.
Defined.

(* ===================================================================== *)
(** ** Further properties: the diagnostic endpoint *)
(* ===================================================================== *)

(** X11.  The diagnostic response always has the same shape: for every
    environment and handle, whatever raises, it holds exactly the keys
    backend, database, database_url, database_name, connection_status
    and collections, and backend is always reported as running. *)
Theorem test_database_shape (environ : gmap string string)
    (d : option Diagnostic.DbHandle) :
  exists r,
    Diagnostic.test_database environ d = Return r
    /\ keys r = diagnostic_keys
    /\ r !! "backend" = Some (VStr "✅ Running").
Proof.
  destruct d as [[nm cs]|].
  - destruct nm as [|v|msg], cs as [names|msg'];
      (eexists; split; [reflexivity|]; split; [|reflexivity]);
      generalize (Diagnostic.getenv_truthy environ "DATABASE_URL"); intros b;
      unfold keys, diagnostic_keys; rewrite !dom_insert_L;
      unfold Diagnostic.initial_response;
      rewrite !dom_insert_L, dom_singleton_L; set_solver.
  - eexists. split; [reflexivity|]. split; [|reflexivity].
    unfold keys, diagnostic_keys, Diagnostic.initial_response.
    rewrite !dom_insert_L, dom_singleton_L. set_solver.
Qed.

(** X12.  The connection string is only looked at when there is a
    handle: without a database database_url is reported as not set even
    if DATABASE_URL is set; with a handle it is reported as set exactly
    when DATABASE_URL is set and not empty, also when a later step
    raises. *)
Theorem test_database_url (environ : gmap string string)
    (d : option Diagnostic.DbHandle) :
  exists r,
    Diagnostic.test_database environ d = Return r
    /\ r !! "database_url"
       = Some (VStr (match d with
                     | None => "❌ Not Set"
                     | Some _ =>
                         match environ !! "DATABASE_URL" with
                         | None | Some "" => "❌ Not Set"
                         | Some _ => "✅ Set"
                         end
                     end)).
Proof.
  destruct d as [[nm cs]|]; [|eexists; split; reflexivity].
  assert (Henv : (if Diagnostic.getenv_truthy environ "DATABASE_URL"
                  then "✅ Set" else "❌ Not Set")
                 = match environ !! "DATABASE_URL" with
                   | None | Some "" => "❌ Not Set"
                   | Some _ => "✅ Set"
                   end).
  { unfold Diagnostic.getenv_truthy.
    destruct (environ !! "DATABASE_URL") as [[|c v]|]; reflexivity. }
  rewrite <- Henv.
  destruct nm as [|v|msg], cs as [names|msg'];
    (eexists; split; reflexivity).
Qed.

(** X13.  How far the diagnostic got is visible in the response.  When
    reading the handle's name raises, connection_status stays "Not
    Connected", database_name stays not set and collections stays
    empty.  Otherwise connection_status is "Connected" and
    database_name is the handle's name, or "Connected" when the handle
    has no name; collections then lists the collection names, or stays
    empty when listing them raises. *)
Theorem test_database_progress (environ : gmap string string)
    (h : Diagnostic.DbHandle) :
  exists r,
    Diagnostic.test_database environ (Some h) = Return r
    /\ match Diagnostic.name h with
       | Diagnostic.AttrRaises _ =>
           r !! "connection_status" = Some (VStr "Not Connected")
           /\ r !! "database_name" = Some (VStr "❌ Not Set")
           /\ r !! "collections" = Some (VList [])
       | other =>
           r !! "connection_status" = Some (VStr "Connected")
           /\ r !! "database_name"
              = Some (VStr (match other with
                            | Diagnostic.Attr v => v
                            | _ => "✅ Connected"
                            end))
           /\ r !! "collections"
              = Some (VList (match Diagnostic.collection_names h with
                             | Return names => names
                             | Raise _ => []
                             end))
       end.
Proof.
  destruct h as [nm cs].
  destruct nm as [|v|msg], cs as [names|msg'];
    (eexists; split; [reflexivity|]);
    cbn [Diagnostic.name Diagnostic.collection_names]; repeat split.
Qed.

(* ===================================================================== *)
(** ** Further properties: digests *)
(* ===================================================================== *)

Lemma hex_of_length (n : nat) (x : Z) : length (hex_of n x) = n.
Proof.
  revert x. induction n as [|n IH]; intros x; [reflexivity|].
  cbn [hex_of]. rewrite length_app, IH. cbn [length]. lia.
Qed.

Lemma hex_digit_char (d : Z) : 0 <= d < 16 -> hex_digit d ∈ hex_chars.
Proof.
  intros Hd.
  assert (Hcases : d = 0 \/ d = 1 \/ d = 2 \/ d = 3 \/ d = 4 \/ d = 5 \/ d = 6
                   \/ d = 7 \/ d = 8 \/ d = 9 \/ d = 10 \/ d = 11 \/ d = 12
                   \/ d = 13 \/ d = 14 \/ d = 15) by lia.
  apply list_elem_of_In.
  repeat (destruct Hcases as [-> | Hcases]; [vm_compute; tauto|]).
  subst d. vm_compute. tauto.
Qed.

Lemma hex_of_chars (n : nat) (x : Z) : Forall (fun c => c ∈ hex_chars) (hex_of n x).
Proof.
  revert x. induction n as [|n IH]; intros x; [constructor|].
  cbn [hex_of]. apply Forall_app. split; [apply IH|].
  constructor; [|constructor]. apply hex_digit_char.
  change 15 with (Z.ones 4). rewrite Z.land_ones by lia.
  apply Z.mod_pos_bound. lia.
Qed.

Lemma string_of_list_ascii_length (l : list ascii) :
  String.length (string_of_list_ascii l) = length l.
Proof. induction l as [|c l IH]; simpl; congruence. Qed.

(** X14.  Every digest is 64 lowercase hexadecimal characters, whatever
    the text, so that is what [register] stores as password_hash and
    what [login] compares with. *)
Theorem sha256_is_hex64 (text : string) :
  String.length (sha256 text) = 64%nat
  /\ Forall (fun c => c ∈ hex_chars) (list_ascii_of_string (sha256 text)).
Proof.
  unfold sha256, Sha256.hexdigest.
  set (ws := Sha256.digest_words (Sha256.bytes_of_string text)).
  assert (Hws : exists a b c d e f g h, ws = [a; b; c; d; e; f; g; h]).
  { unfold ws, Sha256.digest_words. cbv zeta. by eexists _, _, _, _, _, _, _, _. }
  destruct Hws as (a & b & c & d & e & f & g & h & ->).
  rewrite string_of_list_ascii_length, list_ascii_of_string_of_list_ascii.
  cbn [map concat]. split.
  - rewrite !length_app, !hex_of_length. reflexivity.
  - rewrite !Forall_app. repeat split; try apply hex_of_chars. constructor.
Qed.

(* ===================================================================== *)
(** ** Further properties: sequences of requests *)
(* ===================================================================== *)

Lemma login_world payload w : snd (login payload w) = w.
Proof.
  destruct w as [[st|] t]; [|reflexivity]. rewrite login_connected.
  destruct (find_one _ _); [|reflexivity]. by destruct (bool_decide _).
Qed.

Lemma get_blog_world slug w : snd (get_blog slug w) = w.
Proof. rewrite get_blog_run. by destruct (find_one _ _). Qed.

Lemma ensure_sample_blog_posts_elsewhere w w1 name :
  ensure_sample_blog_posts w = (Return tt, w1) ->
  name ≠ "blogpost" -> stored w1 name = stored w name.
Proof.
  intros Hrun Hne. destruct w as [[st|] t].
  - destruct (collection st "blogpost") as [|d c] eqn:Hc.
    + rewrite (ensure_sample_blog_posts_seeds st t Hc) in Hrun.
      injection Hrun as <-. unfold stored. cbn [db]. destruct st.
      by apply collection_insert_ne.
    + rewrite ensure_sample_blog_posts_skips in Hrun.
      * by injection Hrun as <-.
      * left. unfold stored. cbn [db]. by rewrite Hc.
  - by injection Hrun as <-.
Qed.

Lemma list_blog_elsewhere limit w name :
  name ≠ "blogpost" -> stored (snd (list_blog limit w)) name = stored w name.
Proof.
  intros Hne. destruct (ensure_sample_blog_posts_returns w) as [w1 Hrun].
  rewrite (list_blog_after_seeding limit w w1 Hrun). cbn [snd].
  by apply (ensure_sample_blog_posts_elsewhere w).
Qed.

(** X15.  Unique emails are an invariant of the service: whatever
    sequence of register, login, blog and contact requests is served
    one after the other, if no two user documents carried the same
    email before, none do afterwards. *)
Theorem serve_all_keeps_emails_unique (reqs : list request) (w : World) :
  unique_emails (stored w "user") ->
  unique_emails (stored (serve_all reqs w) "user").
Proof.
  unfold serve_all. revert w. induction reqs as [|req reqs IH]; intros w Huniq.
  - exact Huniq.
  - cbn [fold_left]. apply IH. destruct req as [reg|log|limit|slug|msg];
      cbn [serve].
    + destruct (register_users reg w) as [-> | (Hfresh & o & t & ->)]; [done|].
      apply (unique_emails_snoc _ _ (reg_email reg)); [done | done |].
      intros e. apply stamped_user_only_email.
    + by rewrite login_world.
    + by rewrite list_blog_elsewhere.
    + by rewrite get_blog_world.
    + by rewrite contact_other_collections.
Qed.

Lemma serve_all_keeps_emails_unique_witness :
  unique_emails (stored empty_world "user")
  /\ unique_emails (stored (serve_all session empty_world) "user")
  /\ length (stored (serve_all session empty_world) "user") = 2%nat.
Proof.
  assert (Hempty : unique_emails (stored empty_world "user")).
  { intros i j d1 d2 e Hi. vm_compute in Hi. discriminate. }
  split; [exact Hempty|]. split.
  - exact (serve_all_keeps_emails_unique session empty_world Hempty).
  - vm_compute. reflexivity.
Defined.




